(** * Keras RNN cell wrappers and the dtensor mnist test: a shallow embedding

    The development follows two files of the repository:
    - [keras/layers/rnn/cell_wrappers.py]: the class [_RNNCellWrapper] and its
      three subclasses [DropoutWrapper], [ResidualWrapper], [DeviceWrapper];
    - [keras/dtensor/mnist_model_test.py]: the test [test_mnist_training_cpu].

    Python objects that the code mutates and shares (config dictionaries) live
    in an explicit store; methods are computations in a state-and-exception
    monad.  Code the two files call but do not define (the [Layer] base class,
    the initializers of the mixins of [base_cell_wrappers], the layer
    deserializer, the dtensor runtime) is taken as a parameter through type
    classes. *)

From Stdlib Require Import ZArith String List Lia SpecFloat.
From stdpp Require Import base option list sorting gmap strings pretty.

Open Scope string_scope.
Open Scope list_scope.

(** ** Python exceptions and results *)

Record exn := Exn { exn_class : string; exn_arg : string }.

Definition ValueError (msg : string) : exn := Exn "ValueError" msg.
Definition KeyError (key : string) : exn := Exn "KeyError" key.
Definition IndexError (msg : string) : exn := Exn "IndexError" msg.
Definition AssertionError (msg : string) : exn := Exn "AssertionError" msg.
Definition TypeError (msg : string) : exn := Exn "TypeError" msg.
Definition AttributeError (name : string) : exn := Exn "AttributeError" name.

Inductive res (A : Type) : Type :=
| Ok (a : A)
| Raise (e : exn).
Arguments Ok {A} a.
Arguments Raise {A} e.

Definition is_ok {A} (r : res A) : bool :=
  match r with Ok _ => true | Raise _ => false end.

(** A computation over a mutable state [S] that returns or raises; the state
    survives an exception, as the heap of a Python program does. *)
Definition M (S A : Type) : Type := S → res A * S.

Definition ret {S A} (a : A) : M S A := λ σ, (Ok a, σ).
Definition bind {S A B} (m : M S A) (f : A → M S B) : M S B :=
  λ σ, match m σ with
       | (Ok a, σ') => f a σ'
       | (Raise e, σ') => (Raise e, σ')
       end.
Definition raise {S A} (e : exn) : M S A := λ σ, (Raise e, σ).

Notation "'let!' x := m 'in' k" := (bind m (λ x, k))
  (at level 10, x name, m at level 100, k at level 200).
Notation "'do!' m 'in' k" := (bind m (λ _, k))
  (at level 10, m at level 100, k at level 200).

(** ** Values, dictionaries and the store *)

Definition loc := positive.

(** Containers are objects of the store, so a value that is a dictionary is a
    reference: copying a dictionary copies references (a shallow copy). *)
Inductive value : Type :=
| VNone
| VBool (b : bool)
| VInt (n : Z)
| VStr (s : string)
| VRef (l : loc).

Abbreviation dict := (gmap string value).
Abbreviation store := (gmap loc (gmap string value)).

(** [d.items()] *)
Definition dict_items (d : dict) : list (string * value) := map_to_list d.

(** [dict(items)]: the pairs are inserted from left to right, so that of two
    pairs with one key the later one stays. *)
Definition dict_of_items (items : list (string * value)) : dict :=
  foldl (λ d kv, <[kv.1 := kv.2]> d) ∅ items.

(** Creation of a dictionary object. *)
Definition alloc (d : dict) : M store loc :=
  λ σ, let l := fresh (dom σ) in (Ok l, <[l := d]> σ).

(** The dictionary behind [l.name], for a method [name] of dictionaries; an
    object that is no dictionary has no such attribute, an
    [AttributeError]. *)
Definition load (name : string) (l : loc) : M store dict :=
  λ σ, match σ !! l with
       | Some d => (Ok d, σ)
       | None => (Raise (AttributeError name), σ)
       end.

(** [**l] among the arguments of a call; what is no mapping is a
    [TypeError]. *)
Definition unpack (l : loc) : M store dict :=
  λ σ, match σ !! l with
       | Some d => (Ok d, σ)
       | None => (Raise (TypeError "argument after ** must be a mapping"), σ)
       end.

(** Whether [**kwargs] names one of the parameters that a call has [bound]
    already; such a call raises a [TypeError], whose message names one of
    the arguments given twice. *)
Definition binds_twice (bound : list string) (kwargs : dict) : bool :=
  existsb (λ name, bool_decide (is_Some (kwargs !! name))) bound.

Definition multiple_values : exn :=
  TypeError "got multiple values for argument".

(** In-place update of the dictionary object at [l]. *)
Definition put_dict (l : loc) (d : dict) : M store unit :=
  λ σ, (Ok tt, <[l := d]> σ).

(** [d.copy()] *)
Definition dict_copy (l : loc) : M store loc :=
  let! d := load "copy" l in alloc d.

(** [d.pop(key)], without default *)
Definition dict_pop (l : loc) (key : string) : M store value :=
  let! d := load "pop" l in
  match d !! key with
  | Some v => do! put_dict l (delete key d) in ret v
  | None => raise (KeyError key)
  end.

(** A computation that leaves every dictionary that exists when it starts as
    it is: it may read the store and create dictionaries. *)
Definition frame_safe {A} (m : M store A) : Prop :=
  ∀ (σ : store) (l : loc) (d : dict), σ !! l = Some d → (m σ).2 !! l = Some d.

(** ** Classes and inspected signatures *)

Record pyclass := PyClass { cls_module : string; cls_name : string }.

#[global] Instance pyclass_eq_dec : EqDecision pyclass.
Proof. solve_decision. Defined.

(** The class [lstm_v1.LSTMCell]. *)
Definition lstm_v1_LSTMCell : pyclass :=
  PyClass "keras.layers.rnn.lstm_v1" "LSTMCell".

(** The result of [tf_inspect.getfullargspec]. *)
Record FullArgSpec := {
  spec_args : list string;
  spec_varargs : option string;
  spec_varkw : option string;
  spec_kwonlyargs : list string
}.

(** [x is not None] *)
Definition is_not_None {A} (x : option A) : bool :=
  match x with Some _ => true | None => false end.

(** ** The wrapped cell and the framework around the wrappers *)

(** What the wrappers use of a recurrent cell: its class and the classes it
    inherits from, the signature of its [call], and its methods [call],
    [build] and [get_config].  A cell is a mutable object: [call] and [build]
    are computations over the cell itself. *)
Class Runtime := {
  Tensor : Type;
  CellState : Type;
  Shape : Type;
  Cell : Type;
  LayerAttrs : Type;
  tensor_add : Tensor → Tensor → Tensor;
  cell_class : Cell → pyclass;
  cell_bases : Cell → list pyclass;
  getfullargspec_call : Cell → FullArgSpec;
  cell_call : Tensor → CellState → dict → M Cell (Tensor * CellState);
  cell_build : Shape → M Cell unit;
  cell_built : Cell → bool;
  cell_get_config : Cell → M store loc
}.

(** [isinstance(c, k)] *)
Definition isinstance `{Runtime} (c : Cell) (k : pyclass) : bool :=
  bool_decide (k ∈ cell_class c :: cell_bases c).

(** The classes of [cell_wrappers.py]. *)
Inductive wrapper_class :=
| _RNNCellWrapper
| DropoutWrapper
| ResidualWrapper
| DeviceWrapper.

(** The attributes a wrapper inherits from [Layer]: the [built] flag, which
    the wrapper's [build] assigns, and the rest. *)
Record Layer `{Runtime} := {
  built : bool;
  layer_attrs : LayerAttrs
}.

Record Wrapper `{Runtime} := {
  self_class : wrapper_class;
  layer : Layer;
  cell : Cell;
  _expects_training_arg : bool
}.

Definition set_cell `{Runtime} (c : Cell) (self : Wrapper) : Wrapper :=
  {| self_class := self_class self; layer := layer self; cell := c;
     _expects_training_arg := _expects_training_arg self |}.

Definition set_built `{Runtime} (b : bool) (self : Wrapper) : Wrapper :=
  {| self_class := self_class self;
     layer := {| built := b; layer_attrs := layer_attrs (layer self) |};
     cell := cell self;
     _expects_training_arg := _expects_training_arg self |}.

(** A method of [self.cell] run from a method of the wrapper. *)
Definition on_cell `{Runtime} {A} (m : M Cell A) : M Wrapper A :=
  λ self, let (r, c) := m (cell self) in (r, set_cell c self).

(** [self.built = b] *)
Definition assign_built `{Runtime} (b : bool) : M Wrapper unit :=
  λ self, (Ok tt, set_built b self).

(** The type of [cell_call_fn] and of [_call_wrapped_cell] once
    [cell_call_fn] is given. *)
Definition call_fn `{Runtime} : Type :=
  Tensor → CellState → dict → M Wrapper (Tensor * CellState).

Definition init_fn `{Runtime} : Type :=
  Cell → list value → dict → M store Wrapper.

(** Code of the framework that [cell_wrappers.py] calls and does not define:
    [Layer.__init__] and [Layer.get_config] (reached through
    [AbstractRNNCell]), the [__init__] of the three mixins of
    [base_cell_wrappers], each given the next [__init__] of the method
    resolution order, the dropout a dropout wrapper applies to its inputs and
    to the outputs of its cell (it reads the keep probabilities of the wrapper
    and draws from its random generator), and
    [keras.layers.serialization.deserialize]. *)
Class Framework `{Runtime} := {
  Layer_init : list value → dict → M store Layer;
  Layer_get_config : Wrapper → M store loc;
  DropoutWrapperBase_init : init_fn → init_fn;
  ResidualWrapperBase_init : init_fn → init_fn;
  DeviceWrapperBase_init : init_fn → init_fn;
  input_dropout : Tensor → M Wrapper Tensor;
  output_dropout : Tensor → M Wrapper Tensor;
  deserialize_layer : value → value → M store Cell
}.

(** An [__init__] that leaves the existing dictionaries as they are. *)
Definition frame_safe_init `{Runtime} (f : init_fn) : Prop :=
  ∀ c args kwargs, frame_safe (f c args kwargs).


(** ** [cell_wrappers.py] *)

Section CellWrappers.
Context `{Framework}.

(** [_RNNCellWrapper.__init__]; [cls] is the class of [self]. *)
Definition _RNNCellWrapper_init (cls : wrapper_class) : init_fn :=
  λ c args kwargs,
  let! ly := Layer_init args kwargs in
  let cell_call_spec := getfullargspec_call c in
  ret {| self_class := cls;
         layer := ly;
         cell := c;
         _expects_training_arg :=
           bool_decide ("training" ∈ spec_args cell_call_spec)
           || is_not_None (spec_varkw cell_call_spec) |}.

(** Modelled from the spec: [ResidualWrapperBase._call_wrapped_cell] of
    [base_cell_wrappers], which is not among the sources.  The spec names the
    wrapper's auxiliary behaviour "residual addition", and the class is
    documented as the wrapper "that ensures cell inputs are added to the
    outputs": the cell is run, the inputs are added to its output, its new
    state is returned as it is. *)
Definition ResidualWrapperBase_call_wrapped_cell
    (inputs : Tensor) (state : CellState) (cell_call_fn : call_fn)
    (kwargs : dict) : M Wrapper (Tensor * CellState) :=
  let! r := cell_call_fn inputs state kwargs in
  ret (tensor_add r.1 inputs, r.2).

(** Modelled from the spec: [DropoutWrapperBase._call_wrapped_cell] of
    [base_cell_wrappers], which is not among the sources.  The spec names the
    wrapper's auxiliary behaviour "applying dropout", and the class is
    documented as the "operator adding dropout to inputs and outputs of the
    given cell": dropout is applied to the inputs, the cell is run on the
    result, dropout is applied to its output, and its new state is returned as
    it is. *)
Definition DropoutWrapperBase_call_wrapped_cell
    (inputs : Tensor) (state : CellState) (cell_call_fn : call_fn)
    (kwargs : dict) : M Wrapper (Tensor * CellState) :=
  let! dropped := input_dropout inputs in
  let! r := cell_call_fn dropped state kwargs in
  let! output := output_dropout r.1 in
  ret (output, r.2).

(** Modelled from the spec: [DeviceWrapperBase._call_wrapped_cell] of
    [base_cell_wrappers], which is not among the sources.  The spec names the
    wrapper's auxiliary behaviour "device placement", and the class is
    documented as the "operator that ensures an RNNCell runs on a particular
    device": the cell is run and what it returns is returned; the device
    decides where the step is computed, not what it computes. *)
Definition DeviceWrapperBase_call_wrapped_cell
    (inputs : Tensor) (state : CellState) (cell_call_fn : call_fn)
    (kwargs : dict) : M Wrapper (Tensor * CellState) :=
  cell_call_fn inputs state kwargs.

(** The attribute [self._call_wrapped_cell], looked up along the classes of
    [self]: each of the three public classes has it from its mixin;
    [_RNNCellWrapper] defines none and inherits none, so a wrapper of the
    bare class has no such attribute. *)
Definition _call_wrapped_cell (cls : wrapper_class) :
    option (Tensor → CellState → call_fn → dict →
            M Wrapper (Tensor * CellState)) :=
  match cls with
  | _RNNCellWrapper => None
  | DropoutWrapper => Some DropoutWrapperBase_call_wrapped_cell
  | ResidualWrapper => Some ResidualWrapperBase_call_wrapped_cell
  | DeviceWrapper => Some DeviceWrapperBase_call_wrapped_cell
  end.

(** The bound method [self.cell.call]. *)
Definition self_cell_call : call_fn :=
  λ inputs state kwargs, on_cell (cell_call inputs state kwargs).

(** [_RNNCellWrapper.call], called as [self.call(inputs, state, **kwargs)].
    The call binds [self], [inputs] and [state], so [**kwargs] may name none
    of them; the body looks up [self._call_wrapped_cell], and calls it with
    the keyword [cell_call_fn] and [**kwargs], so [**kwargs] may not name
    [cell_call_fn] either. *)
Definition _RNNCellWrapper_call (inputs : Tensor) (state : CellState)
    (kwargs : dict) : M Wrapper (Tensor * CellState) :=
  λ self,
  if binds_twice ["self"; "inputs"; "state"] kwargs
  then (Raise multiple_values, self)
  else
    match _call_wrapped_cell (self_class self) with
    | None => (Raise (AttributeError "_call_wrapped_cell"), self)
    | Some call_wrapped_cell =>
        if binds_twice ["cell_call_fn"] kwargs
        then (Raise multiple_values, self)
        else call_wrapped_cell inputs state self_cell_call kwargs self
    end.

(** [_RNNCellWrapper.build] *)
Definition _RNNCellWrapper_build (inputs_shape : Shape) : M Wrapper unit :=
  do! on_cell (cell_build inputs_shape) in
  assign_built true.

(** [_RNNCellWrapper.get_config] *)
Definition _RNNCellWrapper_get_config (self : Wrapper) : M store loc :=
  let class_name := VStr (cls_name (cell_class (cell self))) in
  let! cell_config := cell_get_config (cell self) in
  let! cell_entry :=
    alloc (dict_of_items [("class_name", class_name);
                          ("config", VRef cell_config)]) in
  let! config := alloc (dict_of_items [("cell", VRef cell_entry)]) in
  let! base_config := Layer_get_config self in
  let! base_items := load "items" base_config in
  let! items := load "items" config in
  alloc (dict_of_items (dict_items base_items ++ dict_items items)).

(** [DropoutWrapper.__init__] *)
Definition DropoutWrapper_init : init_fn :=
  λ c args kwargs,
  let! self :=
    DropoutWrapperBase_init (_RNNCellWrapper_init DropoutWrapper)
      c args kwargs in
  if isinstance (cell self) lstm_v1_LSTMCell
  then raise (ValueError
    ("keras LSTM cell does not work with DropoutWrapper. " ++
     "Please use LSTMCell(dropout=x, recurrent_dropout=y) " ++
     "instead."))
  else ret self.

(** [ResidualWrapper.__init__] *)
Definition ResidualWrapper_init : init_fn :=
  ResidualWrapperBase_init (_RNNCellWrapper_init ResidualWrapper).

(** [DeviceWrapper.__init__] *)
Definition DeviceWrapper_init : init_fn :=
  DeviceWrapperBase_init (_RNNCellWrapper_init DeviceWrapper).

(** [cls(cell, *args, **kwargs)] *)
Definition instantiate (cls : wrapper_class) : init_fn :=
  match cls with
  | _RNNCellWrapper => _RNNCellWrapper_init _RNNCellWrapper
  | DropoutWrapper => DropoutWrapper_init
  | ResidualWrapper => ResidualWrapper_init
  | DeviceWrapper => DeviceWrapper_init
  end.

(** [_RNNCellWrapper.from_config], a class method; [config] is rebound to
    the copy by the first statement. *)
Definition _RNNCellWrapper_from_config (cls : wrapper_class)
    (config : loc) (custom_objects : value) : M store Wrapper :=
  let! config := dict_copy config in
  let! cell_entry := dict_pop config "cell" in
  let! c := deserialize_layer cell_entry custom_objects in
  let! kwargs := unpack config in
  instantiate cls c [] kwargs.

End CellWrappers.

(** ** Python's [sorted] and list equality on floats *)

(** A float of Python is an object that holds an IEEE 754 double.  The
    comparisons [<] and [==] of two floats are those of the standard on their
    values ([SFltb], [SFeqb]): every comparison with a NaN is false, also that
    of a NaN with itself.  The comparison of two lists looks at the identity
    of the elements before it asks [==], and [sorted] keeps the objects of
    its argument, so the model keeps floats apart as objects. *)
Abbreviation float := spec_float.

Definition is_nan (x : float) : bool :=
  match x with S754_nan => true | _ => false end.

#[global] Instance float_eq_dec : EqDecision float.
Proof. solve_decision. Defined.

(** A float object: what tells it from the other objects, and its value. *)
Record pyfloat := PyFloat { float_id : nat; float_value : float }.

#[global] Instance pyfloat_eq_dec : EqDecision pyfloat.
Proof. solve_decision. Defined.

(** [x is y] *)
Definition float_is (x y : pyfloat) : bool := bool_decide (x = y).

(** [x < y] *)
Definition float_lt (x y : pyfloat) : bool :=
  SFltb (float_value x) (float_value y).

(** [x == y] *)
Definition float_eq (x y : pyfloat) : bool :=
  SFeqb (float_value x) (float_value y).

(** The comparison of two elements by which containers decide [==]: one
    object is equal to itself, two objects are compared with [==]. *)
Definition object_eq (x y : pyfloat) : bool := float_is x y || float_eq x y.

Section Sorting.
Context {A : Type} (lt : A → A → bool).

(** [list.sort] on a list of fewer than 64 elements, as CPython runs it:
    [count_run] finds the run the list begins with, ascending as long as no
    element is less than the one before it, or descending as long as each is
    less than the one before it; a descending run is reversed; and
    [binarysort] inserts the remaining elements one by one, each at the place
    a binary search finds for it.  Only [<] is asked.  A list of 64 elements
    or more is cut into such runs, which are then merged; the merging is not
    modelled.  The sort is stable, so on elements that [<] orders, as floats
    without a NaN, the list below is the sorted list at every length; the
    properties of sorted losses are stated for losses without a NaN. *)

(** The number of elements after [prev] with which the ascending run goes
    on. *)
Fixpoint run_ascending (prev : A) (l : list A) : nat :=
  match l with
  | [] => 0
  | x :: l' => if lt x prev then 0 else S (run_ascending x l')
  end.

(** The same for a descending run. *)
Fixpoint run_descending (prev : A) (l : list A) : nat :=
  match l with
  | [] => 0
  | x :: l' => if lt x prev then S (run_descending x l') else 0
  end.

(** [count_run]: the length of the run at the head of the list, and whether
    it descends. *)
Definition count_run (l : list A) : nat * bool :=
  match l with
  | [] => (0, false)
  | [x] => (1, false)
  | x :: y :: l' =>
      if lt y x then (2 + run_descending y l', true)
      else (2 + run_ascending y l', false)
  end.

(** The binary search of [binarysort] for the place of [pivot] in the sorted
    part: between [l] and [r], it looks at the middle element [p] and goes on
    in the left half when [pivot < p], in the right half otherwise. *)
Fixpoint bisect (fuel : nat) (pivot : A) (sorted : list A) (l r : nat) : nat :=
  match fuel with
  | 0 => l
  | S fuel' =>
      if decide (l < r) then
        let p := l + (r - l) / 2 in
        match sorted !! p with
        | Some y =>
            if lt pivot y then bisect fuel' pivot sorted l p
            else bisect fuel' pivot sorted (S p) r
        | None => l
        end
      else l
  end.

(** One step of [binarysort]: [pivot], the next element, is put at the place
    found. *)
Definition binary_insert (sorted : list A) (pivot : A) : list A :=
  let l := bisect (S (length sorted)) pivot sorted 0 (length sorted) in
  take l sorted ++ pivot :: drop l sorted.

Definition binarysort (run rest : list A) : list A :=
  foldl binary_insert run rest.

Definition list_sort (l : list A) : list A :=
  let (n, descending) := count_run l in
  let run := take n l in
  binarysort (if descending then reverse run else run) (drop n l).

(** [sorted(l, reverse=True)]: a new list of the same objects is reversed,
    sorted in ascending order and reversed again, which keeps the sort
    stable. *)
Definition sorted_reverse (l : list A) : list A :=
  reverse (list_sort (reverse l)).

(** [asc x y]: [x] may stand before [y] in ascending order, that is, [y] is
    not less than [x]; [desc x y]: [x] may stand before [y] in descending
    order. *)
Definition asc : relation A := λ x y, lt y x = false.
Definition desc : relation A := λ x y, lt x y = false.

End Sorting.

(** [l1 == l2] on lists: the lengths are equal and the elements are, one by
    one, under the comparison [eqb] of elements. *)
Fixpoint list_eqb {A} (eqb : A → A → bool) (l1 l2 : list A) : bool :=
  match l1, l2 with
  | [], [] => true
  | x :: l1', y :: l2' => eqb x y && list_eqb eqb l1' l2'
  | _, _ => false
  end.

(** The order of the floats that are not NaN, read off three integers: the
    rank of the kind and sign, then exponent and mantissa, negated below
    zero. *)
Definition float_rank (x : float) : Z :=
  match x with
  | S754_infinity true => -2
  | S754_finite true _ _ => -1
  | S754_zero _ | S754_nan => 0
  | S754_finite false _ _ => 1
  | S754_infinity false => 2
  end.

Definition float_exp (x : float) : Z :=
  match x with
  | S754_finite true _ e => - e
  | S754_finite false _ e => e
  | _ => 0
  end.

Definition float_man (x : float) : Z :=
  match x with
  | S754_finite true m _ => Z.neg m
  | S754_finite false m _ => Z.pos m
  | _ => 0
  end.

Definition key_lt (x y : float) : Prop :=
  (float_rank x < float_rank y
   ∨ (float_rank x = float_rank y
      ∧ (float_exp x < float_exp y
         ∨ (float_exp x = float_exp y ∧ float_man x < float_man y))))%Z.

Definition key_eq (x y : float) : Prop :=
  float_rank x = float_rank y ∧ float_exp x = float_exp y
  ∧ float_man x = float_man y.

(** Each loss is at most the one before it. *)
Definition decreasing (losses : list float) : Prop :=
  ∀ i x y, losses !! i = Some x → losses !! S i = Some y → SFleb y x = true.

(** ** [mnist_model_test.py] *)

(** The objects of the dtensor runtime and of the test utilities. *)
Class DTensor := {
  PhysicalDevice : Type;
  Mesh : Type;
  LayoutMap : Type;
  Model : Type;
  Variables : Type;
  Optimizer : Type
}.

(** [tf.config.LogicalDeviceConfiguration()], built with no argument. *)
Inductive LogicalDeviceConfiguration := LogicalDeviceConfiguration_default.

(** The calls the test makes into the framework, with their arguments; the
    index is the type of the value a call returns.  A learning rate is given
    by its decimal literal. *)
Inductive call `{DTensor} : Type → Type :=
| list_physical_devices (device_type : string) : call (list PhysicalDevice)
| set_logical_device_configuration (device : PhysicalDevice)
    (logical_devices : list LogicalDeviceConfiguration) : call unit
| create_mesh (devices : list string) (mesh_dims : list (string * nat)) :
    call Mesh
| enable_tf_random_generator : call unit
| set_random_seed (seed : Z) : call unit
| get_all_replicated_layout_map (mesh : Mesh) : call LayoutMap
| get_model_with_layout_map (layout_map : LayoutMap) : call Model
| Adam (learning_rate : string) (mesh : Mesh) : call Optimizer
| trainable_variables (model : Model) : call Variables
| optimizer_build (optimizer : Optimizer) (var_list : Variables) : call unit
| train_mnist_model_batch_sharded (model : Model) (optimizer : Optimizer)
    (mesh : Mesh) (num_epochs steps_per_epoch global_batch_size : nat) :
    call (list pyfloat).

(** A test body: it returns, raises, or calls the framework and goes on with
    what the call returned. *)
Inductive prog `{DTensor} (R : Type) : Type :=
| Return (r : R)
| Throw (e : exn)
| Call {X : Type} (c : call X) (k : X → prog R).
Arguments Return {_ R} r.
Arguments Throw {_ R} e.
Arguments Call {_ R X} c k.

(** A call as it happened: the request and what came back. *)
Inductive event `{DTensor} : Type :=
| Ev {X : Type} (c : call X) (r : res X).

(** The framework answers the calls, over a state of its own, and may raise. *)
Definition handler `{DTensor} (W : Type) : Type := ∀ X, call X → M W X.

(** Execution of a test body: the outcome, the final state of the framework
    and the calls made, in order. *)
Fixpoint exec `{DTensor} {W R} (h : handler W) (p : prog R) (w : W) :
    res R * W * list event :=
  match p with
  | Return r => (Ok r, w, [])
  | Throw e => (Raise e, w, [])
  | Call c k =>
      match h _ c w with
      | (Ok x, w') =>
          let '(r, w'', tr) := exec h (k x) w' in (r, w'', Ev c (Ok x) :: tr)
      | (Raise e, w') => (Raise e, w', [Ev c (Raise e)])
      end
  end.

Definition outcome `{DTensor} {W R} (h : handler W) (p : prog R) (w : W) :
    res R := (exec h p w).1.1.

Definition trace `{DTensor} {W R} (h : handler W) (p : prog R) (w : W) :
    list event := (exec h p w).2.

(** [self.assertEqual(first, second)] on lists of floats: it passes when
    [first == second] and fails otherwise. *)
Definition assertEqual `{DTensor} (first second : list pyfloat) : prog unit :=
  if list_eqb object_eq first second then Return tt
  else Throw (AssertionError "Lists differ").

(** ['CPU:%d' % i] *)
Definition format_CPU (i : nat) : string := "CPU:" +:+ pretty i.

(** [MnistTest.test_mnist_training_cpu] *)
Definition test_mnist_training_cpu `{DTensor} : prog unit :=
  Call (list_physical_devices "CPU") (λ devices,
  match devices !! 0%nat with
  | None => Throw (IndexError "list index out of range")
  | Some device0 =>
  Call (set_logical_device_configuration device0
          (replicate 8 LogicalDeviceConfiguration_default)) (λ _,
  Call (create_mesh (format_CPU <$> seq 0 8) [("batch", 8%nat)]) (λ mesh,
  Call enable_tf_random_generator (λ _,
  Call (set_random_seed 1337) (λ _,
  Call (get_all_replicated_layout_map mesh) (λ layout_map,
  Call (get_model_with_layout_map layout_map) (λ model,
  Call (Adam "0.001" mesh) (λ optimizer,
  Call (trainable_variables model) (λ var_list,
  Call (optimizer_build optimizer var_list) (λ _,
  Call (train_mnist_model_batch_sharded model optimizer mesh 3 100 64)
    (λ train_losses,
  assertEqual train_losses (sorted_reverse float_lt train_losses)))))))))))
  end).

(** What a trace holds of the three calls the claims are about. *)
Definition device_listings `{DTensor} (tr : list event) :
    list (string * res (list PhysicalDevice)) :=
  omap (λ e, match e with
             | Ev (list_physical_devices device_type) r =>
                 Some (device_type, r)
             | _ => None
             end) tr.

Definition logical_device_requests `{DTensor} (tr : list event) :
    list (PhysicalDevice * list LogicalDeviceConfiguration) :=
  omap (λ e, match e with
             | Ev (set_logical_device_configuration d cfg) _ => Some (d, cfg)
             | _ => None
             end) tr.

Definition mesh_requests `{DTensor} (tr : list event) :
    list (list string * list (string * nat) * res Mesh) :=
  omap (λ e, match e in event return option _ with
             | Ev (create_mesh ds dims) r => Some (ds, dims, r)
             | _ => None
             end) tr.

Definition training_runs `{DTensor} (tr : list event) :
    list (Mesh * res (list pyfloat)) :=
  omap (λ e, match e with
             | Ev (train_mnist_model_batch_sharded _ _ mesh _ _ _) r =>
                 Some (mesh, r)
             | _ => None
             end) tr.

(** ** [mnist_model_test.py], the calls by name and what flows between them *)

(** The name under which the test calls. *)
Definition call_name `{DTensor} {X} (c : call X) : string :=
  match c with
  | list_physical_devices _ => "tf.config.list_physical_devices"
  | set_logical_device_configuration _ _ =>
      "tf.config.set_logical_device_configuration"
  | create_mesh _ _ => "mesh_util.create_mesh"
  | enable_tf_random_generator => "backend.enable_tf_random_generator"
  | set_random_seed _ => "tf_utils.set_random_seed"
  | get_all_replicated_layout_map _ =>
      "integration_test_utils.get_all_replicated_layout_map"
  | get_model_with_layout_map _ =>
      "integration_test_utils.get_model_with_layout_map"
  | Adam _ _ => "optimizer_lib.Adam"
  | trainable_variables _ => "model.trainable_variables"
  | optimizer_build _ _ => "optimizer.build"
  | train_mnist_model_batch_sharded _ _ _ _ _ _ =>
      "integration_test_utils.train_mnist_model_batch_sharded"
  end.

Definition event_name `{DTensor} (e : event) : string :=
  match e with Ev c _ => call_name c end.

(** The calls of [test_mnist_training_cpu] in the order of its statements. *)
Definition cpu_test_calls : list string :=
  [ "tf.config.list_physical_devices";
    "tf.config.set_logical_device_configuration";
    "mesh_util.create_mesh";
    "backend.enable_tf_random_generator";
    "tf_utils.set_random_seed";
    "integration_test_utils.get_all_replicated_layout_map";
    "integration_test_utils.get_model_with_layout_map";
    "optimizer_lib.Adam";
    "model.trainable_variables";
    "optimizer.build";
    "integration_test_utils.train_mnist_model_batch_sharded" ].

(** The exceptions the calls of a trace raised. *)
Definition raised `{DTensor} (tr : list event) : list exn :=
  omap (λ e, match e with
             | Ev _ (Raise ex) => Some ex
             | _ => None
             end) tr.

(** The arguments and results of the calls between the mesh and the
    training. *)
Definition seeds_set `{DTensor} (tr : list event) : list Z :=
  omap (λ e, match e with
             | Ev (set_random_seed seed) _ => Some seed
             | _ => None
             end) tr.

Definition layout_maps_made `{DTensor} (tr : list event) :
    list (Mesh * res LayoutMap) :=
  omap (λ e, match e in event return option _ with
             | Ev (get_all_replicated_layout_map mesh) r => Some (mesh, r)
             | _ => None
             end) tr.

Definition models_made `{DTensor} (tr : list event) :
    list (LayoutMap * res Model) :=
  omap (λ e, match e in event return option _ with
             | Ev (get_model_with_layout_map layout_map) r =>
                 Some (layout_map, r)
             | _ => None
             end) tr.

Definition optimizers_made `{DTensor} (tr : list event) :
    list (string * Mesh * res Optimizer) :=
  omap (λ e, match e in event return option _ with
             | Ev (Adam learning_rate mesh) r => Some (learning_rate, mesh, r)
             | _ => None
             end) tr.

Definition variables_read `{DTensor} (tr : list event) :
    list (Model * res Variables) :=
  omap (λ e, match e in event return option _ with
             | Ev (trainable_variables model) r => Some (model, r)
             | _ => None
             end) tr.

Definition optimizers_built `{DTensor} (tr : list event) :
    list (Optimizer * Variables * res unit) :=
  omap (λ e, match e in event return option _ with
             | Ev (optimizer_build optimizer var_list) r =>
                 Some (optimizer, var_list, r)
             | _ => None
             end) tr.

Definition training_requests `{DTensor} (tr : list event) :
    list (Model * Optimizer * Mesh * (nat * nat * nat)) :=
  omap (λ e, match e with
             | Ev (train_mnist_model_batch_sharded model optimizer mesh
                     num_epochs steps_per_epoch global_batch_size) _ =>
                 Some (model, optimizer, mesh,
                       (num_epochs, steps_per_epoch, global_batch_size))
             | _ => None
             end) tr.

(** ** [DISABLED_test_mnist_training_tpu] *)

(** The calls of the TPU test: three of its own, and those it shares with the
    CPU test. *)
Inductive tpu_call `{DTensor} : Type → Type :=
| dtensor_initialize_tpu_system : tpu_call unit
| num_global_devices (device_type : string) : tpu_call nat
| create_tpu_mesh (mesh_dim_names : list string) (mesh_shape : list nat)
    (mesh_name : string) : tpu_call Mesh
| shared {X : Type} (c : call X) : tpu_call X.

Inductive tpu_prog `{DTensor} (R : Type) : Type :=
| TpuReturn (r : R)
| TpuThrow (e : exn)
| TpuCall {X : Type} (c : tpu_call X) (k : X → tpu_prog R).
Arguments TpuReturn {_ R} r.
Arguments TpuThrow {_ R} e.
Arguments TpuCall {_ R X} c k.

Inductive tpu_event `{DTensor} : Type :=
| TpuEv {X : Type} (c : tpu_call X) (r : res X).

Definition tpu_handler `{DTensor} (W : Type) : Type :=
  ∀ X, tpu_call X → M W X.

Fixpoint tpu_exec `{DTensor} {W R} (h : tpu_handler W) (p : tpu_prog R)
    (w : W) : res R * W * list tpu_event :=
  match p with
  | TpuReturn r => (Ok r, w, [])
  | TpuThrow e => (Raise e, w, [])
  | TpuCall c k =>
      match h _ c w with
      | (Ok x, w') =>
          let '(r, w'', tr) := tpu_exec h (k x) w' in
          (r, w'', TpuEv c (Ok x) :: tr)
      | (Raise e, w') => (Raise e, w', [TpuEv c (Raise e)])
      end
  end.

Definition tpu_outcome `{DTensor} {W R} (h : tpu_handler W)
    (p : tpu_prog R) (w : W) : res R := (tpu_exec h p w).1.1.

Definition tpu_trace `{DTensor} {W R} (h : tpu_handler W)
    (p : tpu_prog R) (w : W) : list tpu_event := (tpu_exec h p w).2.

(** [self.assertEqual(first, second)] in the TPU test *)
Definition tpu_assertEqual `{DTensor} (first second : list pyfloat) :
    tpu_prog unit :=
  if list_eqb object_eq first second then TpuReturn tt
  else TpuThrow (AssertionError "Lists differ").

(** [MnistTest.DISABLED_test_mnist_training_tpu] *)
Definition DISABLED_test_mnist_training_tpu `{DTensor} : tpu_prog unit :=
  TpuCall dtensor_initialize_tpu_system (λ _,
  TpuCall (num_global_devices "TPU") (λ total_tpu_device_count,
  let mesh_shape := [total_tpu_device_count] in
  TpuCall (create_tpu_mesh ["batch"] mesh_shape "tpu_mesh") (λ mesh,
  TpuCall (shared (set_random_seed 1337)) (λ _,
  TpuCall (shared (get_all_replicated_layout_map mesh)) (λ layout_map,
  TpuCall (shared (get_model_with_layout_map layout_map)) (λ model,
  TpuCall (shared (Adam "0.001" mesh)) (λ optimizer,
  TpuCall (shared (trainable_variables model)) (λ var_list,
  TpuCall (shared (optimizer_build optimizer var_list)) (λ _,
  TpuCall (shared (train_mnist_model_batch_sharded model optimizer mesh
                     3 100 64)) (λ train_losses,
  tpu_assertEqual train_losses
    (sorted_reverse float_lt train_losses))))))))))).

Definition tpu_call_name `{DTensor} {X} (c : tpu_call X) : string :=
  match c with
  | dtensor_initialize_tpu_system => "tpu_util.dtensor_initialize_tpu_system"
  | num_global_devices _ => "dtensor.num_global_devices"
  | create_tpu_mesh _ _ _ => "tpu_util.create_tpu_mesh"
  | shared c => call_name c
  end.

Definition tpu_event_name `{DTensor} (e : tpu_event) : string :=
  match e with TpuEv c _ => tpu_call_name c end.

(** The calls of the TPU test in the order of its statements. *)
Definition tpu_test_calls : list string :=
  [ "tpu_util.dtensor_initialize_tpu_system";
    "dtensor.num_global_devices";
    "tpu_util.create_tpu_mesh";
    "tf_utils.set_random_seed";
    "integration_test_utils.get_all_replicated_layout_map";
    "integration_test_utils.get_model_with_layout_map";
    "optimizer_lib.Adam";
    "model.trainable_variables";
    "optimizer.build";
    "integration_test_utils.train_mnist_model_batch_sharded" ].

Definition tpu_device_counts `{DTensor} (tr : list tpu_event) :
    list (string * res nat) :=
  omap (λ e, match e in tpu_event return option _ with
             | TpuEv (num_global_devices device_type) r =>
                 Some (device_type, r)
             | _ => None
             end) tr.

Definition tpu_mesh_requests `{DTensor} (tr : list tpu_event) :
    list (list string * list nat * string * res Mesh) :=
  omap (λ e, match e in tpu_event return option _ with
             | TpuEv (create_tpu_mesh names shape name) r =>
                 Some (names, shape, name, r)
             | _ => None
             end) tr.

Definition tpu_training_runs `{DTensor} (tr : list tpu_event) :
    list (Mesh * (nat * nat * nat) * res (list pyfloat)) :=
  omap (λ e, match e in tpu_event return option _ with
             | TpuEv (shared (train_mnist_model_batch_sharded _ _ mesh
                                num_epochs steps_per_epoch
                                global_batch_size)) r =>
                 Some (mesh,
                       (num_epochs, steps_per_epoch, global_batch_size), r)
             | _ => None
             end) tr.

(** The store [get_config] of a wrapper hands to the base layer's
    [get_config]: the store the cell's [get_config] left, with the dictionary
    of the cell's entry and the dictionary [{"cell": entry}] created in it. *)
Definition store_with_cell_entry `{Runtime}
    (self : Wrapper) (cell_config : loc) (σ1 : store) : store :=
  let entry := fresh (dom σ1) in
  let σe :=
    <[entry := {[ "class_name" := VStr (cls_name (cell_class (cell self)));
                  "config" := VRef cell_config ]}]> σ1 in
  <[fresh (dom σe) := {[ "cell" := VRef entry ]}]> σe.

(** ** A small cell and framework on which the definitions run *)

(** A cell with one integer weight: its output and new state are
    [weight * inputs + state]. *)
Record LinearCell := {
  linear_class : pyclass;
  linear_bases : list pyclass;
  linear_spec : FullArgSpec;
  linear_built : bool;
  linear_weight : Z
}.

Definition linear_runtime : Runtime := {|
  Tensor := Z;
  CellState := Z;
  Shape := nat;
  Cell := LinearCell;
  LayerAttrs := dict;
  tensor_add := Z.add;
  cell_class := linear_class;
  cell_bases := linear_bases;
  getfullargspec_call := linear_spec;
  cell_call := λ inputs state _ c,
    let y := (linear_weight c * inputs + state)%Z in (Ok (y, y), c);
  cell_build := λ _ c,
    (Ok tt, {| linear_class := linear_class c;
               linear_bases := linear_bases c;
               linear_spec := linear_spec c;
               linear_built := true;
               linear_weight := linear_weight c |});
  cell_built := linear_built;
  cell_get_config := λ c, alloc {[ "units" := VInt (linear_weight c) ]}
|}.

(** A framework whose mixins only pass on to the next initializer, whose base
    layer keeps its keyword arguments as its config, whose dropout keeps
    every entry and scales it by two, and whose deserializer reads the class
    name and the weight back. *)
Definition linear_deserialize (v _ : value) : M store LinearCell :=
  match v with
  | VRef entry =>
      let! d := load "get" entry in
      match d !! "class_name", d !! "config" with
      | Some (VStr name), Some (VRef cfg) =>
          let! c := load "get" cfg in
          match c !! "units" with
          | Some (VInt n) =>
              ret {| linear_class := PyClass "cells" name;
                     linear_bases := [];
                     linear_spec := {| spec_args := ["self"; "inputs"; "state"];
                                       spec_varargs := None;
                                       spec_varkw := None;
                                       spec_kwonlyargs := [] |};
                     linear_built := false;
                     linear_weight := n |}
          | _ => raise (ValueError "units")
          end
      | _, _ => raise (ValueError "cell")
      end
  | _ => raise (TypeError "config")
  end.

Definition linear_framework : @Framework linear_runtime := {|
  Layer_init := λ _ kwargs, ret (@Build_Layer linear_runtime false kwargs);
  Layer_get_config := λ self, alloc (layer_attrs (layer self));
  DropoutWrapperBase_init := λ next, next;
  ResidualWrapperBase_init := λ next, next;
  DeviceWrapperBase_init := λ next, next;
  input_dropout := λ inputs, ret (2 * inputs)%Z;
  output_dropout := λ output, ret (2 * output)%Z;
  deserialize_layer := linear_deserialize
|}.

Definition training_spec : FullArgSpec :=
  {| spec_args := ["self"; "inputs"; "state"; "training"];
     spec_varargs := None; spec_varkw := None; spec_kwonlyargs := [] |}.

Definition gru : LinearCell :=
  {| linear_class := PyClass "cells" "GRUCell"; linear_bases := [];
     linear_spec := training_spec; linear_built := false;
     linear_weight := 3 |}.

Definition lstm : LinearCell :=
  {| linear_class := lstm_v1_LSTMCell;
     linear_bases := [PyClass "keras.layers.rnn.lstm" "LSTMCell"];
     linear_spec := training_spec; linear_built := false;
     linear_weight := 2 |}.



Definition residual_gru : @Wrapper linear_runtime :=
  {| self_class := ResidualWrapper;
     layer := @Build_Layer linear_runtime true {[ "name" := VStr "res" ]};
     cell := gru;
     _expects_training_arg := true |}.


Definition dropout_gru : @Wrapper linear_runtime :=
  {| self_class := DropoutWrapper;
     layer := @Build_Layer linear_runtime false ∅;
     cell := gru;
     _expects_training_arg := true |}.

(** A runtime for the test whose devices are numbers and whose mesh is the
    list of its device names; training returns the given losses. *)
Definition plain_dtensor : DTensor := {|
  PhysicalDevice := nat;
  Mesh := list string;
  LayoutMap := unit;
  Model := unit;
  Variables := unit;
  Optimizer := unit
|}.

Definition plain_handler (losses : list pyfloat) :
    @handler plain_dtensor unit :=
  λ X c,
  match c in call X return M unit X with
  | list_physical_devices _ => ret [0%nat]
  | set_logical_device_configuration _ _ => ret tt
  | create_mesh devices _ => ret devices
  | enable_tf_random_generator => ret tt
  | set_random_seed _ => ret tt
  | get_all_replicated_layout_map _ => ret tt
  | get_model_with_layout_map _ => ret tt
  | Adam _ _ => ret tt
  | trainable_variables _ => ret tt
  | optimizer_build _ _ => ret tt
  | train_mnist_model_batch_sharded _ _ _ _ _ _ => ret losses
  end.

(** The doubles 2.0, 1.0 and 0.5. *)
Definition float_2 : float := S754_finite false 4503599627370496 (-51).
Definition float_1 : float := S754_finite false 4503599627370496 (-52).
Definition float_half : float := S754_finite false 4503599627370496 (-53).

(** A store with a wrapper config at location 1, the config of its cell's
    entry at 2 and the cell's own config at 3. *)
Definition wrapper_config : dict :=
  {[ "cell" := VRef 2%positive; "name" := VStr "residual" ]}.

Definition config_store : store :=
  {[ 1%positive := wrapper_config;
     2%positive := {[ "class_name" := VStr "GRUCell";
                      "config" := VRef 3%positive ]};
     3%positive := {[ "units" := VInt 3 ]} ]}.

(** What [get_config] of [residual_gru] returns from the empty store, and
    the store it leaves. *)
Definition residual_config : loc := 5%positive.

Definition residual_config_store : store :=
  Eval vm_compute in
    (@_RNNCellWrapper_get_config _ linear_framework residual_gru ∅).2.

(** New float objects of the given values. *)
Definition objects_of (values : list float) : list pyfloat :=
  imap PyFloat values.

Definition some_losses : list pyfloat :=
  objects_of [float_2; float_1; float_1; float_half].

(** Three losses of 1.0. *)
Definition constant_losses : list pyfloat :=
  objects_of (replicate 3 float_1).


(** The small framework with another deserializer. *)
Definition linear_framework_with
    (deserialize : value → value → M store LinearCell) :
    @Framework linear_runtime := {|
  Layer_init := λ _ kwargs, ret (@Build_Layer linear_runtime false kwargs);
  Layer_get_config := λ self, alloc (layer_attrs (layer self));
  DropoutWrapperBase_init := λ next, next;
  ResidualWrapperBase_init := λ next, next;
  DeviceWrapperBase_init := λ next, next;
  input_dropout := λ inputs, ret (2 * inputs)%Z;
  output_dropout := λ output, ret (2 * output)%Z;
  deserialize_layer := deserialize
|}.

(** A deserializer that returns the LSTM cell, and one that fails. *)
Definition lstm_framework : @Framework linear_runtime :=
  linear_framework_with (λ _ _, ret lstm).

Definition failing_framework : @Framework linear_runtime :=
  linear_framework_with (λ _ _, raise (ValueError "Unknown layer")).

(** Cells that implement neither [build] nor [get_config]. *)
Definition bare_runtime : Runtime := {|
  Tensor := Z;
  CellState := Z;
  Shape := nat;
  Cell := LinearCell;
  LayerAttrs := dict;
  tensor_add := Z.add;
  cell_class := linear_class;
  cell_bases := linear_bases;
  getfullargspec_call := linear_spec;
  cell_call := λ inputs state _ c, (Ok (inputs, state), c);
  cell_build := λ _ c, (Raise (ValueError "inputs_shape"), c);
  cell_built := linear_built;
  cell_get_config := λ _, raise (Exn "NotImplementedError" "get_config")
|}.

Definition bare_framework : @Framework bare_runtime := {|
  Layer_init := λ _ kwargs, ret (@Build_Layer bare_runtime false kwargs);
  Layer_get_config := λ self, alloc (layer_attrs (layer self));
  DropoutWrapperBase_init := λ next, next;
  ResidualWrapperBase_init := λ next, next;
  DeviceWrapperBase_init := λ next, next;
  input_dropout := λ inputs, ret (2 * inputs)%Z;
  output_dropout := λ output, ret (2 * output)%Z;
  deserialize_layer := λ _ _, raise (ValueError "Unknown layer")
|}.

Definition bare_wrapper : @Wrapper bare_runtime :=
  {| self_class := DeviceWrapper;
     layer := @Build_Layer bare_runtime false ∅;
     cell := gru;
     _expects_training_arg := true |}.

(** A cell whose [call] takes [training] as a keyword-only argument. *)
Definition keyword_only_spec : FullArgSpec :=
  {| spec_args := ["self"; "inputs"; "state"];
     spec_varargs := None; spec_varkw := None;
     spec_kwonlyargs := ["training"] |}.

Definition keyword_only_cell : LinearCell :=
  {| linear_class := PyClass "cells" "GRUCell"; linear_bases := [];
     linear_spec := keyword_only_spec; linear_built := false;
     linear_weight := 1 |}.

(** A cell of a class that inherits from [lstm_v1.LSTMCell]. *)
Definition peephole_lstm : LinearCell :=
  {| linear_class := PyClass "cells" "PeepholeLSTMCell";
     linear_bases := [lstm_v1_LSTMCell;
                      PyClass "keras.layers.rnn.lstm" "LSTMCell"];
     linear_spec := training_spec; linear_built := false;
     linear_weight := 2 |}.

(** A config without a ["cell"] entry, alone in its store. *)
Definition layer_config : dict := {[ "name" := VStr "residual" ]}.

Definition layer_store : store := {[ 1%positive := layer_config ]}.

(** A handler for the CPU test that lists the given devices and raises at
    the call of the given name. *)
Definition scripted_handler (devices : list nat) (failing : string)
    (losses : list pyfloat) : @handler plain_dtensor unit :=
  λ X c,
  if String.eqb (call_name c) failing
  then raise (Exn "RuntimeError" failing)
  else
    match c in call X return M unit X with
    | list_physical_devices _ => ret devices
    | set_logical_device_configuration _ _ => ret tt
    | create_mesh names _ => ret names
    | enable_tf_random_generator => ret tt
    | set_random_seed _ => ret tt
    | get_all_replicated_layout_map _ => ret tt
    | get_model_with_layout_map _ => ret tt
    | Adam _ _ => ret tt
    | trainable_variables _ => ret tt
    | optimizer_build _ _ => ret tt
    | train_mnist_model_batch_sharded _ _ _ _ _ _ => ret losses
    end.

(** A handler for the TPU test over four devices. *)
Definition plain_tpu_handler (losses : list pyfloat) :
    @tpu_handler plain_dtensor unit :=
  λ X c,
  match c in tpu_call X return M unit X with
  | dtensor_initialize_tpu_system => ret tt
  | num_global_devices _ => ret 4%nat
  | create_tpu_mesh names _ _ => ret names
  | shared c => plain_handler losses _ c
  end.

(** * Properties *)

(** ** The monad *)

Lemma bind_ok {S A B} (m : M S A) (f : A → M S B) σ a σ1 :
  m σ = (Ok a, σ1) → bind m f σ = f a σ1.
Proof. unfold bind. by intros ->. Qed.

Lemma bind_raise {S A B} (m : M S A) (f : A → M S B) σ e σ1 :
  m σ = (Raise e, σ1) → bind m f σ = (Raise e, σ1).
Proof. unfold bind. by intros ->. Qed.

Lemma bind_ok_inv {S A B} (m : M S A) (f : A → M S B) σ b σ' :
  bind m f σ = (Ok b, σ') →
  ∃ a σ1, m σ = (Ok a, σ1) ∧ f a σ1 = (Ok b, σ').
Proof.
  unfold bind. destruct (m σ) as [[a|e] σ1]; [eauto | discriminate].
Qed.

(** ** Calls, builds and constructors of the wrappers *)

Section WrapperProperties.
Context `{Framework}.

(** [call] of a wrapper that has a [_call_wrapped_cell]. *)
Lemma call_run (self : Wrapper) (inputs : Tensor) (state : CellState)
    (kwargs : dict) f :
  _call_wrapped_cell (self_class self) = Some f →
  _RNNCellWrapper_call inputs state kwargs self =
    if binds_twice ["self"; "inputs"; "state"; "cell_call_fn"] kwargs
    then (Raise multiple_values, self)
    else f inputs state self_cell_call kwargs self.
Proof.
  intros Hf. unfold _RNNCellWrapper_call, binds_twice. rewrite Hf.
  cbn [existsb]. by repeat case_bool_decide.
Qed.


(** C4: when the wrapped cell's [build] returns on the shape [s], the
    wrapper's [build] on [s] returns, the wrapped cell is the cell as its own
    [build] on that same [s] left it, and the wrapper is marked built; the
    cell is marked built as well, given that a cell's [build] marks its cell
    built. *)
Theorem build_builds_wrapped_cell
    (self : Wrapper) (s : Shape) (c' : Cell) :
  (∀ c s0 c0, cell_build s0 c = (Ok tt, c0) → cell_built c0 = true) →
  cell_build s (cell self) = (Ok tt, c') →
  ∃ self',
    _RNNCellWrapper_build s self = (Ok tt, self')
    ∧ self' = set_built true (set_cell c' self)
    ∧ cell self' = c'
    ∧ built (layer self') = true
    ∧ cell_built (cell self') = true.
Proof.
  intros Hcontract Hbuild.
  exists (set_built true (set_cell c' self)).
  split; [| repeat split; simpl; eauto].
  unfold _RNNCellWrapper_build, bind, on_cell. by rewrite Hbuild.
Qed.

(** When the cell's [build] raises, so does the wrapper's, and the [built]
    flag of the wrapper is not assigned. *)
Lemma build_raises (self : Wrapper) (s : Shape) e (c' : Cell) :
  cell_build s (cell self) = (Raise e, c') →
  _RNNCellWrapper_build s self = (Raise e, set_cell c' self).
Proof.
  intros Hbuild. unfold _RNNCellWrapper_build, bind, on_cell.
  by rewrite Hbuild.
Qed.

(** C6: for a [ResidualWrapper], the output of [call] is the wrapped cell's
    output plus the inputs and the new state is the wrapped cell's new state;
    when the cell raises, so does the wrapper; and keyword arguments that name
    a parameter of the call are a [TypeError]. *)
Theorem residual_call_adds_inputs
    (self : Wrapper) (inputs : Tensor) (state : CellState) (kwargs : dict) :
  self_class self = ResidualWrapper →
  _RNNCellWrapper_call inputs state kwargs self =
    if binds_twice ["self"; "inputs"; "state"; "cell_call_fn"] kwargs
    then (Raise multiple_values, self)
    else
      match cell_call inputs state kwargs (cell self) with
      | (Ok (output, new_state), c') =>
          (Ok (tensor_add output inputs, new_state), set_cell c' self)
      | (Raise e, c') => (Raise e, set_cell c' self)
      end.
Proof.
  intros Hcls.
  rewrite (call_run self inputs state kwargs
             ResidualWrapperBase_call_wrapped_cell) by by rewrite Hcls.
  destruct (binds_twice _ kwargs); [done |].
  unfold ResidualWrapperBase_call_wrapped_cell, bind, self_cell_call, on_cell.
  destruct (cell_call inputs state kwargs (cell self)) as [[[o n]|e] c'];
    reflexivity.
Qed.

(** C8: once the initialization of the base classes has returned the wrapper
    [self], the constructor of [DropoutWrapper] raises a [ValueError] exactly
    when [self.cell] is an instance of [lstm_v1.LSTMCell], and returns [self]
    exactly when it is not; so it never returns a wrapper of such a cell. *)
Theorem dropout_init_rejects_lstm
    (c : Cell) (args : list value) (kwargs : dict) (σ σ' : store)
    (self : Wrapper) :
  DropoutWrapperBase_init (_RNNCellWrapper_init DropoutWrapper) c args kwargs σ
    = (Ok self, σ') →
  (isinstance (cell self) lstm_v1_LSTMCell = true ↔
     ∃ msg, DropoutWrapper_init c args kwargs σ = (Raise (ValueError msg), σ'))
  ∧ (isinstance (cell self) lstm_v1_LSTMCell = false ↔
     DropoutWrapper_init c args kwargs σ = (Ok self, σ'))
  ∧ (isinstance (cell self) lstm_v1_LSTMCell = true →
     is_ok (DropoutWrapper_init c args kwargs σ).1 = false).
Proof.
  intros Hbase. unfold DropoutWrapper_init.
  rewrite (bind_ok _ _ _ _ _ Hbase).
  destruct (isinstance (cell self) lstm_v1_LSTMCell); unfold raise, ret; cbn.
  - split; [split; [eauto | done] | split; [split; [done | intros [=]] | done]].
  - split; [split; [done | intros [msg [=]]] | done].
Qed.

(** C9: when the initialization of the base layer returns, the constructor of
    [_RNNCellWrapper] returns a wrapper of the given cell whose
    [_expects_training_arg] is [True] exactly when ["training"] is among the
    [args] of the signature of the cell's [call] or its [varkw] is not [None],
    and [False] otherwise. *)
Theorem init_expects_training_arg
    (cls : wrapper_class) (c : Cell) (args : list value) (kwargs : dict)
    (σ σ' : store) (ly : Layer) :
  Layer_init args kwargs σ = (Ok ly, σ') →
  ∃ self,
    _RNNCellWrapper_init cls c args kwargs σ = (Ok self, σ')
    ∧ cell self = c
    ∧ (_expects_training_arg self = true ↔
         ("training" ∈ spec_args (getfullargspec_call c)
          ∨ spec_varkw (getfullargspec_call c) ≠ None))
    ∧ (_expects_training_arg self = false ↔
         (("training" ∉ spec_args (getfullargspec_call c))
          ∧ spec_varkw (getfullargspec_call c) = None)).
Proof.
  intros Hlayer. unfold _RNNCellWrapper_init.
  rewrite (bind_ok _ _ _ _ _ Hlayer). eexists. split; [reflexivity |].
  cbn [cell _expects_training_arg]. split; [done |].
  destruct (spec_varkw (getfullargspec_call c)) as [kw|]; cbn [is_not_None].
  - rewrite orb_true_r. intuition congruence.
  - rewrite orb_false_r, bool_decide_eq_true, bool_decide_eq_false.
    intuition congruence.
Qed.

End WrapperProperties.

(** ** Dictionaries and the store *)

Lemma foldl_insert_lookup (items : list (string * value)) (d : dict) k :
  NoDup items.*1 →
  foldl (λ d kv, <[kv.1 := kv.2]> d) d items !! k =
    match (list_to_map items : dict) !! k with
    | Some v => Some v
    | None => d !! k
    end.
Proof.
  revert d. induction items as [|[k0 v0] items IH]; intros d Hnd; simpl.
  - by rewrite lookup_empty.
  - inversion Hnd as [|? ? Hnotin Hnd']; subst. rewrite IH by done.
    destruct (decide (k0 = k)) as [->|Hne].
    + rewrite !lookup_insert_eq.
      by rewrite (not_elem_of_list_to_map_1 (M := gmap string)).
    + by rewrite !lookup_insert_ne.
Qed.

(** [dict(list(b.items()) + list(c.items()))] is [c] laid over [b]. *)
Lemma dict_of_items_app (b c : dict) :
  dict_of_items (dict_items b ++ dict_items c) = c ∪ b.
Proof.
  apply map_eq; intros k. unfold dict_of_items, dict_items.
  rewrite foldl_app, !foldl_insert_lookup by apply NoDup_fst_map_to_list.
  rewrite !list_to_map_to_list, lookup_union, lookup_empty.
  by destruct (c !! k), (b !! k).
Qed.

Lemma fresh_lookup_ne (σ : store) (l : loc) (d : dict) :
  σ !! l = Some d → l ≠ fresh (dom σ).
Proof.
  intros Hl ->. apply (is_fresh (dom σ)), elem_of_dom. eauto.
Qed.

Lemma frame_safe_ret {A} (a : A) : frame_safe (ret (S := store) a).
Proof. by intros σ l d Hl. Qed.

Lemma frame_safe_raise {A} e : frame_safe (raise (S := store) (A := A) e).
Proof. by intros σ l d Hl. Qed.

Lemma frame_safe_bind {A B} (m : M store A) (f : A → M store B) :
  frame_safe m → (∀ a, frame_safe (f a)) → frame_safe (bind m f).
Proof.
  intros Hm Hf σ l d Hl. unfold bind. specialize (Hm σ l d Hl).
  destruct (m σ) as [[a|e] σ1]; simpl in *; [by apply Hf | done].
Qed.

Lemma frame_safe_alloc (d : dict) : frame_safe (alloc d).
Proof.
  intros σ l d0 Hl. unfold alloc. simpl.
  rewrite lookup_insert_ne; [done |]. symmetry. by eapply fresh_lookup_ne.
Qed.

Lemma frame_safe_load (name : string) (l : loc) : frame_safe (load name l).
Proof. intros σ l0 d Hl. unfold load. by destruct (σ !! l). Qed.

Section ConfigProperties.
Context `{Framework}.

(** The dictionary under ["cell"]. *)
Lemma cell_entry_items (name : string) (cc : loc) :
  dict_of_items [("class_name", VStr name); ("config", VRef cc)]
  = {[ "class_name" := VStr name; "config" := VRef cc ]}.
Proof.
  apply map_eq; intros k. unfold dict_of_items. simpl.
  rewrite !lookup_insert, lookup_singleton, lookup_empty.
  repeat case_decide; simplify_eq; done.
Qed.

(** [get_config], step by step. *)
Lemma get_config_run (self : Wrapper) (σ : store) :
  frame_safe (Layer_get_config self) →
  _RNNCellWrapper_get_config self σ =
    match cell_get_config (cell self) σ with
    | (Raise ex, σ1) => (Raise ex, σ1)
    | (Ok cc, σ1) =>
        let entry := fresh (dom σ1) in
        let σe :=
          <[entry := {[ "class_name" :=
                          VStr (cls_name (cell_class (cell self)));
                        "config" := VRef cc ]}]> σ1 in
        let σ2 :=
          <[fresh (dom σe) := {[ "cell" := VRef entry ]}]> σe in
        match Layer_get_config self σ2 with
        | (Raise ex, σ3) => (Raise ex, σ3)
        | (Ok b, σ3) =>
            match σ3 !! b with
            | None => (Raise (AttributeError "items"), σ3)
            | Some base =>
                (Ok (fresh (dom σ3)),
                 <[fresh (dom σ3) := <["cell" := VRef entry]> base]> σ3)
            end
        end
    end.
Proof.
  intros Hframe. unfold _RNNCellWrapper_get_config, bind at 1.
  destruct (cell_get_config (cell self) σ) as [[cc|ex] σ1]; [| done].
  rewrite cell_entry_items. unfold bind at 1, alloc at 1. cbv zeta.
  unfold bind at 1, alloc at 1. cbv zeta.
  change (dict_of_items [("cell", VRef (fresh (dom σ1)))])
    with (<["cell" := VRef (fresh (dom σ1))]> (∅ : dict)).
  rewrite insert_empty.
  set (entry := fresh (dom σ1)).
  set (σe := <[entry := _]> σ1).
  set (σ2 := <[fresh (dom σe) := _]> σe).
  unfold bind at 1.
  pose proof (Hframe σ2 (fresh (dom σe)) _ (lookup_insert_eq _ _ _)) as Hc.
  destruct (Layer_get_config self σ2) as [[b|ex] σ3]; [| done].
  simpl in Hc. unfold bind at 1, load at 1.
  destruct (σ3 !! b) as [base|]; [| done].
  unfold bind, load. rewrite Hc. unfold alloc.
  by rewrite dict_of_items_app, <- insert_union_singleton_l.
Qed.

(** [from_config], step by step, on a [config] that is a dictionary. *)
Lemma from_config_run (cls : wrapper_class) (config : loc)
    (custom_objects : value) (σ : store) (d : dict) :
  (∀ v, frame_safe (deserialize_layer v custom_objects)) →
  σ !! config = Some d →
  _RNNCellWrapper_from_config cls config custom_objects σ =
    let copy := fresh (dom σ) in
    match d !! "cell" with
    | None => (Raise (KeyError "cell"), <[copy := d]> σ)
    | Some v =>
        let kwargs := delete "cell" d in
        match deserialize_layer v custom_objects (<[copy := kwargs]> σ) with
        | (Raise ex, σd) => (Raise ex, σd)
        | (Ok c, σd) => instantiate cls c [] kwargs σd
        end
    end.
Proof.
  intros Hframe Hconfig.
  unfold _RNNCellWrapper_from_config, dict_copy, dict_pop, bind, load, unpack,
    alloc, put_dict, ret, raise.
  rewrite Hconfig. cbv zeta. rewrite lookup_insert_eq.
  destruct (d !! "cell") as [v|]; [| done].
  rewrite insert_insert_eq.
  pose proof (Hframe v (<[fresh (dom σ) := delete "cell" d]> σ)
                (fresh (dom σ)) _ (lookup_insert_eq _ _ _)) as Hcopy.
  destruct (deserialize_layer v custom_objects _) as [[c|ex] σd]; [| done].
  simpl in Hcopy. by rewrite Hcopy.
Qed.

Lemma _RNNCellWrapper_init_frame (cls : wrapper_class) :
  (∀ args kwargs, frame_safe (Layer_init args kwargs)) →
  frame_safe_init (_RNNCellWrapper_init cls).
Proof.
  intros Hlayer c args kwargs. unfold _RNNCellWrapper_init.
  apply frame_safe_bind; [done |]. intros ly. apply frame_safe_ret.
Qed.

Lemma instantiate_frame (cls : wrapper_class) :
  (∀ args kwargs, frame_safe (Layer_init args kwargs)) →
  (∀ next, frame_safe_init next →
           frame_safe_init (DropoutWrapperBase_init next)) →
  (∀ next, frame_safe_init next →
           frame_safe_init (ResidualWrapperBase_init next)) →
  (∀ next, frame_safe_init next →
           frame_safe_init (DeviceWrapperBase_init next)) →
  frame_safe_init (instantiate cls).
Proof.
  intros Hlayer Hdrop Hres Hdev.
  destruct cls; simpl.
  - by apply _RNNCellWrapper_init_frame.
  - intros c args kwargs. unfold DropoutWrapper_init.
    apply frame_safe_bind.
    + by apply Hdrop, _RNNCellWrapper_init_frame.
    + intros self. destruct (isinstance _ _);
        [apply frame_safe_raise | apply frame_safe_ret].
  - by apply Hres, _RNNCellWrapper_init_frame.
  - by apply Hdev, _RNNCellWrapper_init_frame.
Qed.



(** What [get_config] leaves in the store when it returns. *)
Lemma get_config_has_entry_aux (self : Wrapper) (σ σ' : store) (r : loc) :
  frame_safe (Layer_get_config self) →
  _RNNCellWrapper_get_config self σ = (Ok r, σ') →
  ∃ (base : dict) (entry cell_config : loc),
    σ' !! r = Some (<["cell" := VRef entry]> base)
    ∧ σ' !! entry =
        Some {[ "class_name" := VStr (cls_name (cell_class (cell self)));
                "config" := VRef cell_config ]}
    ∧ (∃ σ1, cell_get_config (cell self) σ = (Ok cell_config, σ1))
    ∧ (∃ σ2 b σ3,
         Layer_get_config self σ2 = (Ok b, σ3) ∧ σ3 !! b = Some base).
Proof.
  intros Hframe. rewrite get_config_run by done.
  destruct (cell_get_config (cell self) σ) as [[cc|ex] σ1] eqn:Hcell;
    [| done].
  cbv zeta.
  set (entry := fresh (dom σ1)).
  set (σe := <[entry := _]> σ1).
  set (σ2 := <[fresh (dom σe) := _]> σe).
  assert (σ2 !! entry = Some {[ "class_name" :=
            VStr (cls_name (cell_class (cell self)));
            "config" := VRef cc ]}) as Hσ2.
  { unfold σ2. rewrite lookup_insert_ne; [apply lookup_insert_eq |].
    apply not_eq_sym, (fresh_lookup_ne σe entry _ (lookup_insert_eq _ _ _)). }
  pose proof (Hframe σ2 entry _ Hσ2) as Hentry.
  destruct (Layer_get_config self σ2) as [[b|ex] σ3] eqn:Hbase; [| done].
  destruct (σ3 !! b) as [base|] eqn:Hb; [| done].
  intros [= <- <-].
  exists base, entry, cc. simpl in Hentry.
  repeat split.
  - by rewrite lookup_insert_eq.
  - rewrite lookup_insert_ne; [done |].
    apply not_eq_sym, (fresh_lookup_ne _ _ _ Hentry).
  - eauto.
  - eauto.
Qed.

(** C5: when [get_config] of a wrapper returns, it returns a dictionary that
    is the config [base] of the base layer with the key ["cell"] set, over
    whatever [base] had there, to a dictionary that holds exactly the class
    name of the wrapped cell under ["class_name"] and what the cell's own
    [get_config] returned under ["config"]; every other key is as in
    [base]. *)
Theorem get_config_has_cell_entry (self : Wrapper) (σ σ' : store) (r : loc) :
  frame_safe (Layer_get_config self) →
  _RNNCellWrapper_get_config self σ = (Ok r, σ') →
  ∃ (config base : dict) (entry cell_config : loc),
    σ' !! r = Some config
    ∧ config !! "cell" = Some (VRef entry)
    ∧ σ' !! entry =
        Some {[ "class_name" := VStr (cls_name (cell_class (cell self)));
                "config" := VRef cell_config ]}
    ∧ (∃ σ1, cell_get_config (cell self) σ = (Ok cell_config, σ1))
    ∧ (∃ σ2 b σ3,
         Layer_get_config self σ2 = (Ok b, σ3) ∧ σ3 !! b = Some base)
    ∧ config = <["cell" := VRef entry]> base
    ∧ (∀ k, k ≠ "cell" → config !! k = base !! k).
Proof.
  intros Hframe Hget.
  destruct (get_config_has_entry_aux self σ σ' r Hframe Hget)
    as (base & entry & cc & Hr & Hentry & Hcell & Hbase).
  exists (<["cell" := VRef entry]> base), base, entry, cc.
  split; [done |]. split; [by rewrite lookup_insert_eq |].
  do 4 (split; [done |]).
  intros k Hk. by rewrite lookup_insert_ne.
Qed.


(** C10: [from_config] leaves the dictionary it is given as it was, whether
    it returns or raises; when it returns, that dictionary had a ["cell"]
    entry and has it still, and the entry was popped from the copy, the
    dictionary created first by the call. *)
Theorem from_config_keeps_argument
    (cls : wrapper_class) (config : loc) (custom_objects : value)
    (σ : store) (d : dict) :
  (∀ v, frame_safe (deserialize_layer v custom_objects)) →
  (∀ args kwargs, frame_safe (Layer_init args kwargs)) →
  (∀ next, frame_safe_init next →
           frame_safe_init (DropoutWrapperBase_init next)) →
  (∀ next, frame_safe_init next →
           frame_safe_init (ResidualWrapperBase_init next)) →
  (∀ next, frame_safe_init next →
           frame_safe_init (DeviceWrapperBase_init next)) →
  σ !! config = Some d →
  let out := _RNNCellWrapper_from_config cls config custom_objects σ in
  out.2 !! config = Some d
  ∧ (is_ok out.1 = true →
     is_Some (d !! "cell")
     ∧ out.2 !! fresh (dom σ) = Some (delete "cell" d)).
Proof.
  intros Hdes Hlayer Hdrop Hres Hdev Hconfig out. subst out.
  pose proof (instantiate_frame cls Hlayer Hdrop Hres Hdev) as Hinst.
  rewrite (from_config_run cls config custom_objects σ d Hdes Hconfig).
  cbv zeta.
  assert (config ≠ fresh (dom σ)) as Hne by by eapply fresh_lookup_ne.
  destruct (d !! "cell") as [v|]; simpl.
  2: { split; [by rewrite lookup_insert_ne | done]. }
  set (σc := <[fresh (dom σ) := delete "cell" d]> σ).
  assert (σc !! config = Some d) as Hc by by (unfold σc; rewrite lookup_insert_ne).
  assert (σc !! fresh (dom σ) = Some (delete "cell" d)) as Hk
    by (unfold σc; by rewrite lookup_insert_eq).
  pose proof (Hdes v σc _ _ Hc) as Hc'. pose proof (Hdes v σc _ _ Hk) as Hk'.
  destruct (deserialize_layer v custom_objects σc) as [[c|ex] σd];
    simpl in *; [| done].
  split; [by apply Hinst |]. intros _. split; [eauto |]. by apply Hinst.
Qed.

End ConfigProperties.

(** ** Sorting *)

Section SortingProperties.
Context {A : Type} (lt eqb : A → A → bool) (P : A → Prop).
Hypothesis lt_asym : ∀ x y, P x → P y → lt x y = true → lt y x = false.
Hypothesis le_trans : ∀ x y z, P x → P y → P z →
  lt y x = false → lt z y = false → lt z x = false.
Hypothesis eqb_spec : ∀ x y, P x → P y →
  (eqb x y = true ↔ lt x y = false ∧ lt y x = false).

(** Adjacent pairs are enough. *)
Lemma adjacent_StronglySorted (R : relation A) l :
  (∀ x y z, P x → P y → P z → R x y → R y z → R x z) →
  Forall P l →
  (∀ i x y, l !! i = Some x → l !! S i = Some y → R x y) ↔
  StronglySorted R l.
Proof.
  intros Htrans HP. split.
  - induction l as [|x l IH]; intros Hadj; [constructor |].
    apply Forall_cons in HP as [Hx HP].
    assert (StronglySorted R l) as Hl.
    { apply IH; [done |]. intros i a b Ha Hb. by apply (Hadj (S i)). }
    constructor; [done |].
    destruct l as [|y l]; [constructor |].
    assert (R x y) as Hxy by by apply (Hadj 0%nat).
    constructor; [done |].
    apply StronglySorted_cons in Hl as [Hyl _].
    apply Forall_cons in HP as [Hy HP].
    rewrite Forall_forall in HP, Hyl |- *. intros z Hz.
    specialize (HP z Hz). specialize (Hyl z Hz).
    by apply (Htrans x y z).
  - induction 1 as [|x l Hl IH Hx]; intros i a b Ha Hb; [done |].
    destruct i as [|i]; simpl in *.
    + injection Ha as ->. rewrite Forall_forall in Hx.
      by apply Hx, list_elem_of_lookup_2 with 0%nat.
    + apply Forall_cons in HP as [_ HP]. by apply (IH HP i).
Qed.

Lemma asc_trans x y z :
  P x → P y → P z → asc lt x y → asc lt y z → asc lt x z.
Proof. unfold asc. intros. by apply (le_trans x y z). Qed.

Lemma desc_trans x y z :
  P x → P y → P z → desc lt x y → desc lt y z → desc lt x z.
Proof. unfold desc. intros. by apply (le_trans z y x). Qed.

Lemma StronglySorted_lookup (R : relation A) l (i j : nat) x y :
  StronglySorted R l → l !! i = Some x → l !! j = Some y → (i < j)%nat →
  R x y.
Proof.
  intros Hs. revert i j. induction Hs as [|a l Hs IH Ha]; intros i j Hi Hj Hij.
  { done. }
  destruct j as [|j]; [lia |]. destruct i as [|i]; simpl in *.
  - injection Hi as ->. rewrite Forall_forall in Ha.
    by eapply Ha, list_elem_of_lookup_2.
  - apply (IH i j); [done | done | lia].
Qed.

Lemma run_ascending_adjacent x l i a b :
  take (S (run_ascending lt x l)) (x :: l) !! i = Some a →
  take (S (run_ascending lt x l)) (x :: l) !! S i = Some b →
  asc lt a b.
Proof.
  revert x i. induction l as [|y l IH]; intros x i; simpl; [by destruct i |].
  destruct (lt y x) eqn:E; simpl.
  { by destruct i. }
  destruct i as [|i]; simpl.
  - by intros [= <-] [= <-].
  - apply IH.
Qed.

Lemma run_descending_adjacent x l i a b :
  take (S (run_descending lt x l)) (x :: l) !! i = Some a →
  take (S (run_descending lt x l)) (x :: l) !! S i = Some b →
  lt b a = true.
Proof.
  revert x i. induction l as [|y l IH]; intros x i; simpl; [by destruct i |].
  destruct (lt y x) eqn:E; simpl.
  2: { by destruct i. }
  destruct i as [|i]; simpl.
  - by intros [= <-] [= <-].
  - apply IH.
Qed.

Lemma run_ascending_all x l :
  StronglySorted (asc lt) (x :: l) → run_ascending lt x l = length l.
Proof.
  revert x. induction l as [|y l IH]; intros x Hs; simpl; [done |].
  apply StronglySorted_cons in Hs as [Hx Hs].
  apply Forall_cons in Hx as [Hxy _]. unfold asc in Hxy. rewrite Hxy.
  by rewrite IH.
Qed.

Lemma count_run_cons x l :
  count_run lt (x :: l) =
    match l with
    | [] => (1, false)
    | y :: _ =>
        if lt y x then (S (run_descending lt x l), true)
        else (S (run_ascending lt x l), false)
    end.
Proof. destruct l as [|y l]; simpl; [done |]. by destruct (lt y x). Qed.


Lemma StronglySorted_reverse l :
  StronglySorted (asc lt) (reverse l) ↔ StronglySorted (desc lt) l.
Proof.
  induction l as [|x l IH]; [split; constructor |].
  rewrite reverse_cons, StronglySorted_app, IH, (StronglySorted_cons (desc lt)),
    Forall_forall.
  split.
  - intros (Hx & Hl & _). split; [| done]. intros y Hy.
    apply (Hx y x); [by apply elem_of_reverse | by apply list_elem_of_singleton].
  - intros [Hx Hl]. split; [| split; [done | repeat constructor]].
    intros y x' Hy ->%list_elem_of_singleton.
    by apply Hx, elem_of_reverse.
Qed.

(** The run [count_run] finds, reversed when it descends, is sorted. *)
Lemma count_run_sorted l :
  Forall P l →
  StronglySorted (asc lt)
    (if (count_run lt l).2 then reverse (take (count_run lt l).1 l)
     else take (count_run lt l).1 l).
Proof.
  intros HP. destruct l as [|x l]; [constructor |].
  rewrite count_run_cons. destruct l as [|y l]; [repeat constructor |].
  destruct (lt y x) eqn:E; cbn [fst snd].
  - apply StronglySorted_reverse.
    apply (adjacent_StronglySorted (desc lt)).
    + apply desc_trans.
    + by apply Forall_take.
    + intros i a b Ha Hb. unfold desc.
      apply lt_asym.
      * apply (Forall_lookup_1 _ _ _ _ (Forall_take _ _ _ HP) Hb).
      * apply (Forall_lookup_1 _ _ _ _ (Forall_take _ _ _ HP) Ha).
      * by apply (run_descending_adjacent x (y :: l) i).
  - apply (adjacent_StronglySorted (asc lt)).
    + apply asc_trans.
    + by apply Forall_take.
    + intros i a b. apply run_ascending_adjacent.
Qed.

(** On a sorted list the run is the whole list. *)
Lemma count_run_all l :
  StronglySorted (asc lt) l → count_run lt l = (length l, false).
Proof.
  intros Hs. destruct l as [|x l]; [done |].
  rewrite count_run_cons. destruct l as [|y l]; [done |].
  rewrite (run_ascending_all x (y :: l) Hs).
  apply StronglySorted_cons in Hs as [Hx _].
  apply Forall_cons in Hx as [Hxy _]. unfold asc in Hxy. by rewrite Hxy.
Qed.

(** The binary search keeps its two invariants: the pivot is not less than
    any element left of [l], and less than every element from [r] on. *)
Lemma bisect_spec (fuel : nat) pivot s (l r : nat) :
  P pivot → Forall P s → StronglySorted (asc lt) s →
  (l ≤ r ≤ length s)%nat → (r - l < fuel)%nat →
  (∀ (j : nat) y, s !! j = Some y → (j < l)%nat → lt pivot y = false) →
  (∀ (j : nat) y, s !! j = Some y → (r ≤ j)%nat → lt pivot y = true) →
  (bisect lt fuel pivot s l r ≤ length s)%nat
  ∧ (∀ (j : nat) y,
       s !! j = Some y → (j < bisect lt fuel pivot s l r)%nat →
       lt pivot y = false)
  ∧ (∀ (j : nat) y,
       s !! j = Some y → (bisect lt fuel pivot s l r ≤ j)%nat →
       lt pivot y = true).
Proof.
  intros Hp HP Hs. revert l r.
  induction fuel as [|fuel IH]; intros l r Hlr Hfuel Hleft Hright; [lia |].
  cbn [bisect]. destruct (decide (l < r)) as [Hlt|Hge].
  2: { assert (l = r) as -> by lia. split; [lia | split; eauto]. }
  cbv zeta.
  assert (l ≤ l + (r - l) / 2 < r)%nat as Hmid.
  { assert ((r - l) / 2 < r - l)%nat by (apply Nat.div_lt; lia). lia. }
  set (p := (l + (r - l) / 2)%nat) in *.
  destruct (lookup_lt_is_Some_2 s p) as [y Hy]; [lia |].
  rewrite Hy. pose proof (Forall_lookup_1 _ _ _ _ HP Hy) as HPy.
  destruct (lt pivot y) eqn:E.
  - apply IH; [lia | lia | done |].
    intros j y' Hj Hpj. pose proof (Forall_lookup_1 _ _ _ _ HP Hj) as HPy'.
    destruct (decide (j = p)) as [->|Hne]; [congruence |].
    assert (asc lt y y') as Hyy'
      by (apply (StronglySorted_lookup _ s p j); [done | done | done | lia]).
    destruct (lt pivot y') eqn:E'; [done |].
    by rewrite (le_trans y y' pivot HPy HPy' Hp Hyy' E') in E.
  - apply IH; [lia | lia | | done].
    intros j y' Hj Hpj. pose proof (Forall_lookup_1 _ _ _ _ HP Hj) as HPy'.
    destruct (decide (j = p)) as [->|Hne]; [congruence |].
    assert (asc lt y' y) as Hyy'
      by (apply (StronglySorted_lookup _ s j p); [done | done | done | lia]).
    by apply (le_trans y' y pivot).
Qed.

Lemma binary_insert_perm s pivot : binary_insert lt s pivot ≡ₚ s ++ [pivot].
Proof.
  unfold binary_insert.
  rewrite <- Permutation_middle, <- Permutation_cons_append.
  by rewrite take_drop.
Qed.

Lemma binary_insert_sorted s pivot :
  P pivot → Forall P s → StronglySorted (asc lt) s →
  StronglySorted (asc lt) (binary_insert lt s pivot).
Proof.
  intros Hp HP Hs. unfold binary_insert.
  destruct (bisect_spec (S (length s)) pivot s 0 (length s))
    as (Hlen & Hleft & Hright); try done; try lia.
  { intros j y Hj Hge. apply lookup_lt_Some in Hj. lia. }
  set (i := bisect lt _ pivot s 0 (length s)) in *.
  pose proof Hs as Hs'. rewrite <- (take_drop i s) in Hs'.
  apply StronglySorted_app in Hs' as (Hcross & Htake & Hdrop).
  apply StronglySorted_app. split; [| split; [done |]].
  - intros x1 x2 Hx1 [->|Hx2]%elem_of_cons; [| by apply Hcross].
    apply list_elem_of_lookup in Hx1 as [j Hj].
    apply lookup_take_Some in Hj as [Hj Hji]. by apply (Hleft j).
  - constructor; [done |]. apply Forall_forall. intros y Hy.
    apply list_elem_of_lookup in Hy as [j Hj]. rewrite lookup_drop in Hj.
    apply lt_asym; [done | by eapply Forall_lookup_1 |].
    apply (Hright (i + j)); [done | lia].
Qed.

Lemma binarysort_perm run rest : binarysort lt run rest ≡ₚ run ++ rest.
Proof.
  revert run. induction rest as [|x rest IH]; intros run; simpl.
  { by rewrite app_nil_r. }
  rewrite IH, binary_insert_perm, <- app_assoc. done.
Qed.

Lemma binarysort_sorted run rest :
  Forall P run → Forall P rest → StronglySorted (asc lt) run →
  StronglySorted (asc lt) (binarysort lt run rest).
Proof.
  revert run. induction rest as [|x rest IH]; intros run Hrun Hrest Hs; simpl.
  { done. }
  apply Forall_cons in Hrest as [Hx Hrest]. apply IH; [| done |].
  - rewrite binary_insert_perm. apply Forall_app. split; [done | by constructor].
  - by apply binary_insert_sorted.
Qed.

Lemma list_sort_perm l : list_sort lt l ≡ₚ l.
Proof.
  unfold list_sort. destruct (count_run lt l) as [n descending].
  rewrite binarysort_perm.
  destruct descending; rewrite ?reverse_Permutation; by rewrite take_drop.
Qed.

Lemma list_sort_sorted l :
  Forall P l → StronglySorted (asc lt) (list_sort lt l).
Proof.
  intros HP. unfold list_sort.
  pose proof (count_run_sorted l HP) as Hrun.
  destruct (count_run lt l) as [n descending]. cbn [fst snd] in Hrun.
  apply binarysort_sorted; [| by apply Forall_drop | done].
  destruct descending; [apply Forall_reverse |]; by apply Forall_take.
Qed.

Lemma list_sort_id l : StronglySorted (asc lt) l → list_sort lt l = l.
Proof.
  intros Hs. unfold list_sort. rewrite (count_run_all l Hs).
  by rewrite firstn_all, drop_all.
Qed.

Lemma sorted_reverse_perm l : sorted_reverse lt l ≡ₚ l.
Proof.
  unfold sorted_reverse.
  by rewrite reverse_Permutation, list_sort_perm, reverse_Permutation.
Qed.

Lemma sorted_reverse_sorted l :
  Forall P l → StronglySorted (desc lt) (sorted_reverse lt l).
Proof.
  intros HP. apply StronglySorted_reverse. unfold sorted_reverse.
  rewrite reverse_involutive. by apply list_sort_sorted, Forall_reverse.
Qed.

Lemma sorted_reverse_id l : StronglySorted (desc lt) l → sorted_reverse lt l = l.
Proof.
  intros Hs. unfold sorted_reverse.
  rewrite list_sort_id by by apply StronglySorted_reverse.
  apply reverse_involutive.
Qed.

Lemma adjacent_sorted l :
  Forall P l →
  (∀ i x y, l !! i = Some x → l !! S i = Some y → desc lt x y) ↔
  StronglySorted (desc lt) l.
Proof. apply adjacent_StronglySorted, desc_trans. Qed.

Lemma lt_irrefl x : P x → lt x x = false.
Proof.
  intros Hx. destruct (lt x x) eqn:E; [| done].
  by rewrite (lt_asym x x Hx Hx E) in E.
Qed.

Lemma list_eqb_Forall2 l1 l2 :
  list_eqb eqb l1 l2 = true ↔ Forall2 (λ x y, eqb x y = true) l1 l2.
Proof.
  revert l2. induction l1 as [|x l1 IH]; intros [|y l2]; simpl.
  - split; [constructor | done].
  - split; [done | inversion 1].
  - split; [done | inversion 1].
  - rewrite andb_true_iff, IH, Forall2_cons. done.
Qed.

Lemma list_eqb_refl l : Forall P l → list_eqb eqb l l = true.
Proof.
  induction 1 as [|x l Hx _ IH]; simpl; [done |].
  rewrite IH, andb_true_r. apply eqb_spec; auto using lt_irrefl.
Qed.

Lemma sorted_eqb l s :
  Forall2 (λ x y, eqb x y = true) l s →
  Forall P l → Forall P s → StronglySorted (desc lt) s → StronglySorted (desc lt) l.
Proof.
  induction 1 as [|x x' l s Hxx Hls IH]; intros HPl HPs Hs; [constructor |].
  apply Forall_cons in HPl as [Hx HPl]. apply Forall_cons in HPs as [Hx' HPs].
  apply StronglySorted_cons in Hs as [Hxs Hs].
  constructor; [by apply IH |].
  apply (eqb_spec x x' Hx Hx') in Hxx as [Hxx1 Hxx2].
  clear IH Hs. induction Hls as [|y y' l s Hyy Hls IH]; [constructor |].
  apply Forall_cons in HPl as [Hy HPl]. apply Forall_cons in HPs as [Hy' HPs].
  apply Forall_cons in Hxs as [Hxy Hxs].
  constructor; [| by apply IH].
  apply (eqb_spec y y' Hy Hy') in Hyy as [Hyy1 Hyy2].
  unfold desc in *.
  apply (le_trans y y' x); auto. apply (le_trans y' x' x); auto.
Qed.

(** A list is equal to itself sorted in descending order exactly when each
    element is at most the one before it. *)
Lemma list_eqb_sorted_reverse l :
  Forall P l →
  list_eqb eqb l (sorted_reverse lt l) = true ↔
  (∀ i x y, l !! i = Some x → l !! S i = Some y → lt x y = false).
Proof.
  intros HP. rewrite (adjacent_sorted l HP). split.
  - intros Heq%list_eqb_Forall2.
    apply (sorted_eqb l (sorted_reverse lt l)); auto.
    + by rewrite sorted_reverse_perm.
    + by apply sorted_reverse_sorted.
  - intros Hs. rewrite sorted_reverse_id by done. by apply list_eqb_refl.
Qed.

End SortingProperties.

(** ** The order of floats *)

Ltac float_cases x y :=
  destruct x as [[]|[]| |[] ? ?], y as [[]|[]| |[] ? ?];
  cbn in *; try discriminate;
  repeat match goal with
         | |- context [Z.compare ?a ?b] => destruct (Z.compare_spec a b)
         | |- context [Pos.compare_cont Eq ?a ?b] =>
             change (Pos.compare_cont Eq a b) with (Pos.compare a b);
             destruct (Pos.compare_spec a b)
         end;
  cbn;
  (split; [intros; try discriminate; try lia | intros; try reflexivity; lia]).

Lemma SFltb_key x y :
  is_nan x = false → is_nan y = false → SFltb x y = true ↔ key_lt x y.
Proof. intros Hx Hy. unfold SFltb, SFcompare, key_lt. float_cases x y. Qed.

Lemma SFeqb_key x y :
  is_nan x = false → is_nan y = false → SFeqb x y = true ↔ key_eq x y.
Proof. intros Hx Hy. unfold SFeqb, SFcompare, key_eq. float_cases x y. Qed.

Lemma SFleb_key x y :
  is_nan x = false → is_nan y = false →
  SFleb x y = true ↔ key_lt x y ∨ key_eq x y.
Proof.
  intros Hx Hy. unfold SFleb, SFcompare, key_lt, key_eq. float_cases x y.
Qed.

Lemma SFltb_false_key x y :
  is_nan x = false → is_nan y = false → SFltb x y = false ↔ ¬ key_lt x y.
Proof.
  intros Hx Hy. rewrite <- (SFltb_key x y Hx Hy). by destruct (SFltb x y).
Qed.

Lemma SFltb_asym x y :
  is_nan x = false → is_nan y = false → SFltb x y = true → SFltb y x = false.
Proof.
  intros Hx Hy. rewrite SFltb_key, SFltb_false_key by done.
  unfold key_lt. lia.
Qed.

Lemma SFltb_le_trans x y z :
  is_nan x = false → is_nan y = false → is_nan z = false →
  SFltb y x = false → SFltb z y = false → SFltb z x = false.
Proof.
  intros Hx Hy Hz. rewrite !SFltb_false_key by done. unfold key_lt. lia.
Qed.

Lemma SFeqb_SFltb x y :
  is_nan x = false → is_nan y = false →
  SFeqb x y = true ↔ SFltb x y = false ∧ SFltb y x = false.
Proof.
  intros Hx Hy. rewrite SFeqb_key, !SFltb_false_key by done.
  unfold key_eq, key_lt. lia.
Qed.

Lemma SFleb_SFltb x y :
  is_nan x = false → is_nan y = false →
  SFleb y x = true ↔ SFltb x y = false.
Proof.
  intros Hx Hy. rewrite SFleb_key, SFltb_false_key by done.
  unfold key_eq, key_lt. lia.
Qed.

(** On floats that are not NaN, one object or two, the comparison of
    elements is [==] on the values. *)
Lemma object_eq_SFeqb (x y : pyfloat) :
  is_nan (float_value x) = false → is_nan (float_value y) = false →
  object_eq x y = SFeqb (float_value x) (float_value y).
Proof.
  intros Hx Hy. unfold object_eq, float_is, float_eq.
  case_bool_decide as E; [| done]. subst y. cbn. symmetry.
  apply SFeqb_SFltb; [done | done |].
  destruct (SFltb (float_value x) (float_value x)) eqn:Hlt; [| done].
  by rewrite (SFltb_asym _ _ Hx Hx Hlt) in Hlt.
Qed.

(** On losses without a NaN, the comparison the test makes holds exactly when
    the losses decrease. *)
Lemma losses_sorted_iff_decreasing (losses : list pyfloat) :
  Forall (λ x, is_nan (float_value x) = false) losses →
  list_eqb object_eq losses (sorted_reverse float_lt losses) = true ↔
  decreasing (float_value <$> losses).
Proof.
  intros Hnan.
  rewrite (list_eqb_sorted_reverse float_lt object_eq
             (λ x, is_nan (float_value x) = false)); [| | | | done].
  - rewrite Forall_forall in Hnan. unfold decreasing, float_lt.
    split.
    + intros Hl i x y. rewrite !list_lookup_fmap.
      destruct (losses !! i) as [a|] eqn:Ha; [| done].
      destruct (losses !! S i) as [b|] eqn:Hb; [| done].
      intros [= <-] [= <-].
      apply SFleb_SFltb; eauto using list_elem_of_lookup_2.
    + intros Hl i a b Ha Hb.
      apply SFleb_SFltb; eauto using list_elem_of_lookup_2.
      apply (Hl i); rewrite list_lookup_fmap; [by rewrite Ha | by rewrite Hb].
  - intros x y. apply SFltb_asym.
  - intros x y z. apply SFltb_le_trans.
  - intros x y Hx Hy. rewrite object_eq_SFeqb by done. by apply SFeqb_SFltb.
Qed.

(** ** The mnist test *)

Section MnistProperties.
Context `{DTensor} {W : Type} (h : handler W).

Lemma outcome_call_ok {R X} (c : call X) (k : X → prog R) w x w' :
  h X c w = (Ok x, w') → outcome h (Call c k) w = outcome h (k x) w'.
Proof.
  unfold outcome. cbn [exec]. intros ->.
  by destruct (exec h (k x) w') as [[r w''] tr].
Qed.

Lemma trace_call_ok {R X} (c : call X) (k : X → prog R) w x w' :
  h X c w = (Ok x, w') →
  trace h (Call c k) w = Ev c (Ok x) :: trace h (k x) w'.
Proof.
  unfold trace. cbn [exec]. intros ->.
  by destruct (exec h (k x) w') as [[r w''] tr].
Qed.

Lemma outcome_call_raise {R X} (c : call X) (k : X → prog R) w e w' :
  h X c w = (Raise e, w') → outcome h (Call c k) w = Raise e.
Proof. unfold outcome. cbn [exec]. by intros ->. Qed.

Lemma trace_call_raise {R X} (c : call X) (k : X → prog R) w e w' :
  h X c w = (Raise e, w') → trace h (Call c k) w = [Ev c (Raise e)].
Proof. unfold trace. cbn [exec]. by intros ->. Qed.

Ltac run_call :=
  match goal with
  | |- context [trace h (Call ?c ?k) ?w] =>
      let E := fresh "Hcall" in
      destruct (h _ c w) as [[?|?] ?] eqn:E;
      [ rewrite ?(outcome_call_ok c k _ _ _ E), (trace_call_ok c k _ _ _ E)
      | rewrite ?(outcome_call_raise c k _ _ _ E),
          (trace_call_raise c k _ _ _ E) ];
      cbn beta
  end.

Lemma outcome_assertEqual (first second : list pyfloat) w :
  outcome h (assertEqual first second) w =
    if list_eqb object_eq first second then Ok tt
    else Raise (AssertionError "Lists differ").
Proof. unfold assertEqual. by destruct (list_eqb object_eq first second). Qed.

Lemma trace_assertEqual (first second : list pyfloat) w :
  trace h (assertEqual first second) w = [].
Proof. unfold assertEqual. by destruct (list_eqb object_eq first second). Qed.

Lemma mesh_devices :
  format_CPU <$> seq 0 8 =
    ["CPU:0"; "CPU:1"; "CPU:2"; "CPU:3"; "CPU:4"; "CPU:5"; "CPU:6"; "CPU:7"].
Proof. vm_compute. reflexivity. Qed.

(** Every way the test can go: each call in turn returns or raises. *)
Ltac run_test :=
  unfold test_mnist_training_cpu; rewrite mesh_devices;
  run_call;
  [ match goal with
    | |- context [match ?l !! _ with _ => _ end] => destruct l as [|? ?]
    end;
    cbn [lookup list_lookup];
    [ | repeat run_call;
        rewrite ?outcome_assertEqual, ?trace_assertEqual ]
  | ];
  cbn.

Ltac solve_leaf :=
  repeat split; intros;
  repeat match goal with
         | H : _ ∈ [] |- _ => by apply elem_of_nil in H
         | H : _ ∈ [_] |- _ => apply list_elem_of_singleton in H
         end;
  cbn in *; simplify_eq; eauto; try congruence.

Lemma test_outcome_of_losses (w : W) (mesh : Mesh) (losses : list pyfloat) :
  (mesh, Ok losses) ∈ training_runs (trace h test_mnist_training_cpu w) →
  outcome h test_mnist_training_cpu w =
    if list_eqb object_eq losses (sorted_reverse float_lt losses) then Ok tt
    else Raise (AssertionError "Lists differ").
Proof. run_test; solve_leaf. Qed.


(** C7: the test asks for logical devices once at most, and then for eight of
    them on the first of the physical CPU devices listed; it asks for a mesh
    over exactly the devices [CPU:0] to [CPU:7] with the single dimension
    [batch] of size 8; and training, when it runs, runs on the mesh that
    request returned, after the eight logical devices were asked for. *)
Theorem test_runs_on_eight_cpu_mesh (w : W) :
  let tr := trace h test_mnist_training_cpu w in
  let eight := replicate 8 LogicalDeviceConfiguration_default in
  let cpus :=
    ["CPU:0"; "CPU:1"; "CPU:2"; "CPU:3"; "CPU:4"; "CPU:5"; "CPU:6"; "CPU:7"] in
  (∀ device cfg, (device, cfg) ∈ logical_device_requests tr →
     cfg = eight ∧ length cfg = 8%nat
     ∧ ∃ rest, device_listings tr = [("CPU", Ok (device :: rest))])
  ∧ (∀ device rest, device_listings tr = [("CPU", Ok (device :: rest))] →
     logical_device_requests tr = [(device, eight)])
  ∧ (∀ ds dims r, (ds, dims, r) ∈ mesh_requests tr →
     ds = cpus ∧ length ds = 8%nat ∧ dims = [("batch", 8%nat)])
  ∧ (∀ device rest u w',
       h _ (list_physical_devices "CPU") w = (Ok (device :: rest), w') →
       h _ (set_logical_device_configuration device eight) w' = (Ok tt, u) →
       ∃ r, mesh_requests tr = [(cpus, [("batch", 8%nat)], r)])
  ∧ (∀ mesh r, (mesh, r) ∈ training_runs tr →
     mesh_requests tr = [(cpus, [("batch", 8%nat)], Ok mesh)]
     ∧ ∃ device, logical_device_requests tr = [(device, eight)]).
Proof.
  intros tr eight cpus. subst tr eight cpus.
  run_test; solve_leaf.
Qed.

End MnistProperties.

(** ** The properties at work on the small framework *)

Lemma linear_deserialize_frame v co : frame_safe (linear_deserialize v co).
Proof.
  destruct v; try apply frame_safe_raise. unfold linear_deserialize.
  apply frame_safe_bind; [apply frame_safe_load |]. intros d.
  destruct (d !! "class_name") as [[]|]; try apply frame_safe_raise.
  destruct (d !! "config") as [[]|]; try apply frame_safe_raise.
  apply frame_safe_bind; [apply frame_safe_load |]. intros c.
  destruct (c !! "units") as [[]|];
    first [apply frame_safe_raise | apply frame_safe_ret].
Qed.

Lemma linear_get_config_frame (self : @Wrapper linear_runtime) :
  frame_safe (@Layer_get_config _ linear_framework self).
Proof. apply frame_safe_alloc. Qed.

Lemma build_builds_wrapped_cell_witness :
  ∃ self',
    @_RNNCellWrapper_build linear_runtime 4%nat dropout_gru = (Ok tt, self')
    ∧ built (layer self') = true
    ∧ linear_built (cell self') = true.
Proof.
  destruct (@build_builds_wrapped_cell linear_runtime dropout_gru 4%nat
              (@cell_build linear_runtime 4%nat gru).2) as (self' & Hb & _ & _ & Hw & Hc).
  - intros c s0 c0 [= <-]. reflexivity.
  - reflexivity.
  - exists self'. auto.
Defined.

Lemma residual_call_adds_inputs_witness :
  @_RNNCellWrapper_call _ linear_framework 5%Z 1%Z ∅ residual_gru
  = (Ok (21%Z, 16%Z), residual_gru).
Proof.
  exact (eq_trans
           (@residual_call_adds_inputs _ linear_framework residual_gru
              5%Z 1%Z ∅ eq_refl) eq_refl).
Defined.



Lemma dropout_init_rejects_lstm_witness :
  ∃ msg, @DropoutWrapper_init _ linear_framework lstm [] ∅ ∅
         = (Raise (ValueError msg), ∅).
Proof.
  destruct (@dropout_init_rejects_lstm _ linear_framework lstm [] ∅ ∅ ∅ _
              eq_refl) as [Hraise _].
  apply Hraise. reflexivity.
Defined.

Lemma init_expects_training_arg_witness :
  ∃ self,
    @_RNNCellWrapper_init _ linear_framework _RNNCellWrapper gru [] ∅ ∅
      = (Ok self, ∅)
    ∧ cell self = gru
    ∧ _expects_training_arg self = true.
Proof.
  destruct (@init_expects_training_arg _ linear_framework _RNNCellWrapper
              gru [] ∅ ∅ ∅ _ eq_refl) as (self & Hinit & Hcell & Htrue & _).
  exists self. split; [exact Hinit |]. split; [exact Hcell |].
  apply Htrue. left. apply (bool_decide_unpack _). exact I.
Defined.

Lemma residual_get_config_run :
  @_RNNCellWrapper_get_config _ linear_framework residual_gru ∅
  = (Ok residual_config, residual_config_store).
Proof. vm_compute. reflexivity. Qed.

Lemma get_config_has_cell_entry_witness :
  ∃ (config : dict) (entry : loc),
    residual_config_store !! residual_config = Some config
    ∧ config !! "cell" = Some (VRef entry).
Proof.
  destruct (@get_config_has_cell_entry _ linear_framework residual_gru ∅
              residual_config_store residual_config
              (linear_get_config_frame residual_gru)
              residual_get_config_run)
    as (config & base & entry & cc & Hr & Hc & _).
  exists config, entry. split; [exact Hr | exact Hc].
Defined.






(** The round trip on the small framework returns a wrapper of a cell of the
    class and weight of the wrapped one. *)
Example round_trip_runs :
  match @_RNNCellWrapper_from_config _ linear_framework ResidualWrapper
          residual_config VNone residual_config_store with
  | (Ok self', _) =>
      linear_class (cell self') = PyClass "cells" "GRUCell"
      ∧ linear_weight (cell self') = 3%Z
      ∧ self_class self' = ResidualWrapper
  | (Raise _, _) => False
  end.
Proof. vm_compute. repeat split; reflexivity. Qed.

Lemma config_store_lookup :
  config_store !! 1%positive = Some wrapper_config.
Proof. vm_compute. reflexivity. Qed.

Lemma from_config_keeps_argument_witness :
  (@_RNNCellWrapper_from_config _ linear_framework ResidualWrapper
     1%positive VNone config_store).2 !! 1%positive = Some wrapper_config
  ∧ is_ok (@_RNNCellWrapper_from_config _ linear_framework ResidualWrapper
             1%positive VNone config_store).1 = true.
Proof.
  destruct (@from_config_keeps_argument _ linear_framework ResidualWrapper
              1%positive VNone config_store wrapper_config
              (λ v, linear_deserialize_frame v VNone)
              (λ args kwargs, frame_safe_ret _)
              (λ next Hnext, Hnext) (λ next Hnext, Hnext)
              (λ next Hnext, Hnext) config_store_lookup) as [Hkeep _].
  split; [exact Hkeep |]. vm_compute. reflexivity.
Defined.


Lemma some_losses_pass :
  outcome (plain_handler some_losses) test_mnist_training_cpu tt = Ok tt.
Proof. vm_compute. reflexivity. Qed.

Lemma some_losses_no_nan :
  Forall (λ x, is_nan (float_value x) = false) some_losses.
Proof. repeat constructor. Qed.



(** A few runs. *)

Example sorted_reverse_floats :
  float_value <$>
    sorted_reverse float_lt (objects_of [float_1; float_2; float_half; float_2])
  = [float_2; float_2; float_1; float_half].
Proof. vm_compute. reflexivity. Qed.

(** Of two equal floats the one that comes first stays first. *)
Example sorted_reverse_stable :
  float_id <$>
    sorted_reverse float_lt (objects_of [float_1; float_2; float_1; float_2])
  = [1; 3; 0; 2]%nat.
Proof. vm_compute. reflexivity. Qed.

Example test_fails_on_an_increase :
  outcome (plain_handler (objects_of [float_2; float_half; float_1]))
    test_mnist_training_cpu tt
  = Raise (AssertionError "Lists differ").
Proof. vm_compute. reflexivity. Qed.

Example test_mesh_request :
  mesh_requests
    (trace (plain_handler some_losses) test_mnist_training_cpu tt)
  = [(["CPU:0"; "CPU:1"; "CPU:2"; "CPU:3"; "CPU:4"; "CPU:5"; "CPU:6";
       "CPU:7"], [("batch", 8%nat)],
      Ok ["CPU:0"; "CPU:1"; "CPU:2"; "CPU:3"; "CPU:4"; "CPU:5"; "CPU:6";
          "CPU:7"])].
Proof. vm_compute. reflexivity. Qed.

Example dropout_accepts_gru :
  is_ok (@DropoutWrapper_init _ linear_framework gru [] ∅ ∅).1 = true.
Proof. reflexivity. Qed.

(** * Further properties of the wrappers *)

Section WrapperBehaviour.
Context `{Framework}.

(** X1: when the wrapped cell's [build] raises, the wrapper's [build] raises
    the same exception and the assignment of [built] is not reached: the
    wrapper keeps its flag and its other attributes, and its cell is as the
    failed [build] left it. *)
Theorem build_failure_keeps_flag
    (self : Wrapper) (s : Shape) (e : exn) (c' : Cell) :
  cell_build s (cell self) = (Raise e, c') →
  ∃ self',
    _RNNCellWrapper_build s self = (Raise e, self')
    ∧ cell self' = c'
    ∧ layer self' = layer self
    ∧ built (layer self') = built (layer self)
    ∧ _expects_training_arg self' = _expects_training_arg self
    ∧ self_class self' = self_class self.
Proof.
  intros Hbuild. exists (set_cell c' self). split; [| done].
  unfold _RNNCellWrapper_build, bind, on_cell. by rewrite Hbuild.
Qed.

(** X2: [build] does not look at [built]: on a wrapper it has built already
    it runs the cell's [build] again, on the cell the first [build] left. *)
Theorem build_twice_builds_cell_twice
    (self : Wrapper) (s1 s2 : Shape) (c1 c2 : Cell) :
  cell_build s1 (cell self) = (Ok tt, c1) →
  cell_build s2 c1 = (Ok tt, c2) →
  (do! _RNNCellWrapper_build s1 in _RNNCellWrapper_build s2) self
  = (Ok tt, set_built true (set_cell c2 self)).
Proof.
  intros H1 H2. unfold _RNNCellWrapper_build, bind, on_cell, assign_built.
  rewrite H1. cbn. by rewrite H2.
Qed.

(** X3: [get_config] of a wrapper raises in exactly three cases: the cell's
    [get_config] raises; or the base layer's does, on the store with the
    cell's entry; or the base layer returns what is no dictionary, and then
    [base_config.items()] of the last line raises an [AttributeError].  In
    the first two cases it raises the exception of the failing call, and in
    all three the store is as the last call left it. *)
Theorem get_config_raises_iff
    (self : Wrapper) (σ σ' : store) (e : exn) :
  frame_safe (Layer_get_config self) →
  _RNNCellWrapper_get_config self σ = (Raise e, σ') ↔
  (cell_get_config (cell self) σ = (Raise e, σ')
   ∨ (∃ cc σ1,
        cell_get_config (cell self) σ = (Ok cc, σ1)
        ∧ Layer_get_config self (store_with_cell_entry self cc σ1)
          = (Raise e, σ'))
   ∨ (∃ cc σ1 b,
        cell_get_config (cell self) σ = (Ok cc, σ1)
        ∧ Layer_get_config self (store_with_cell_entry self cc σ1)
          = (Ok b, σ')
        ∧ σ' !! b = None ∧ e = AttributeError "items")).
Proof.
  intros Hframe. rewrite get_config_run by done.
  destruct (cell_get_config (cell self) σ) as [[cc|ex] σ1]; cbv zeta.
  2: { split; [by left |].
       by intros [Hd|[(?&?&[=]&_)|(?&?&?&[=]&_)]]. }
  change (Layer_get_config self _)
    with (Layer_get_config self (store_with_cell_entry self cc σ1)) at 1.
  destruct (Layer_get_config self (store_with_cell_entry self cc σ1))
    as [[b|ex] σ3] eqn:Hbase; [destruct (σ3 !! b) as [base|] eqn:Hb |];
    (split;
     [ intros [= <- <-];
       first [ right; left; by exists cc, σ1
             | right; right; by exists cc, σ1, b ]
     | intros [Hd|[(cc0&σ0&Hc&Hl)|(cc0&σ0&b0&Hc&Hl&Hn&He)]];
       simplify_eq; congruence ]).
Qed.

(** X4: the dictionary [get_config] returns and the dictionary of its cell
    entry are new objects, different from each other, and every dictionary
    that existed before the call is as it was: a caller may change the
    returned config without changing any other. *)
Theorem get_config_returns_new_dicts
    (self : Wrapper) (σ σ' : store) (r : loc) :
  frame_safe (cell_get_config (cell self)) →
  frame_safe (Layer_get_config self) →
  _RNNCellWrapper_get_config self σ = (Ok r, σ') →
  ∃ (config : dict) (entry : loc),
    σ' !! r = Some config
    ∧ config !! "cell" = Some (VRef entry)
    ∧ σ !! r = None
    ∧ σ !! entry = None
    ∧ r ≠ entry
    ∧ ∀ l d, σ !! l = Some d → σ' !! l = Some d.
Proof.
  intros Hcell Hlayer. rewrite get_config_run by done.
  pose proof (Hcell σ) as Hc.
  destruct (cell_get_config (cell self) σ) as [[cc|ex] σ1]; [| done].
  cbv zeta. simpl in Hc.
  set (entry := fresh (dom σ1)).
  set (σe := <[entry := _]> σ1).
  set (σ2 := <[fresh (dom σe) := _]> σe).
  assert (∀ l d, σ1 !! l = Some d → σ2 !! l = Some d) as H12.
  { intros l d Hl. unfold σ2.
    assert (σe !! l = Some d) as Hle.
    { unfold σe. rewrite lookup_insert_ne; [done |].
      apply not_eq_sym. by eapply fresh_lookup_ne. }
    rewrite lookup_insert_ne; [done |].
    apply not_eq_sym. by eapply fresh_lookup_ne. }
  assert (σ2 !! entry = Some {[ "class_name" :=
            VStr (cls_name (cell_class (cell self)));
            "config" := VRef cc ]}) as He.
  { unfold σ2. rewrite lookup_insert_ne; [apply lookup_insert_eq |].
    apply not_eq_sym, (fresh_lookup_ne σe entry _ (lookup_insert_eq _ _ _)). }
  pose proof (Hlayer σ2) as Hl.
  destruct (Layer_get_config self σ2) as [[b|ex] σ3]; [| done].
  simpl in Hl.
  destruct (σ3 !! b) as [base|]; [| done].
  intros [= <- <-].
  assert (∀ l, is_Some (σ !! l) → l ≠ fresh (dom σ3)) as Hfresh.
  { intros l [d Hd]. eapply fresh_lookup_ne. eauto. }
  exists (<["cell" := VRef entry]> base), entry.
  split; [by rewrite lookup_insert_eq |].
  split; [by rewrite lookup_insert_eq |].
  split.
  { destruct (σ !! fresh (dom σ3)) eqn:E; [| done].
    by destruct (Hfresh (fresh (dom σ3))). }
  split.
  { destruct (σ !! entry) as [d|] eqn:E; [| done].
    apply Hc in E. by apply fresh_lookup_ne in E. }
  split; [apply not_eq_sym; eapply fresh_lookup_ne; apply Hl, He |].
  intros l d Hd. rewrite lookup_insert_ne; [eauto |].
  apply not_eq_sym, Hfresh. eauto.
Qed.

(** X5: on a config without a ["cell"] entry, [from_config] raises
    [KeyError('cell')]: nothing is deserialized and nothing constructed, and
    the store is the one it was given with the copy created in it. *)
Theorem from_config_without_cell
    (cls : wrapper_class) (config : loc) (custom_objects : value)
    (σ : store) (d : dict) :
  σ !! config = Some d →
  d !! "cell" = None →
  _RNNCellWrapper_from_config cls config custom_objects σ
  = (Raise (KeyError "cell"), <[fresh (dom σ) := d]> σ).
Proof.
  intros Hconfig Hcell.
  unfold _RNNCellWrapper_from_config, dict_copy, dict_pop, bind, load, alloc.
  rewrite Hconfig. cbv zeta. by rewrite lookup_insert_eq, Hcell.
Qed.

(** X6: when the deserializer raises on the ["cell"] entry, [from_config]
    raises the same exception and no constructor runs. *)
Theorem from_config_deserialize_failure
    (cls : wrapper_class) (config : loc) (custom_objects : value)
    (σ σd : store) (d : dict) (v : value) (e : exn) :
  σ !! config = Some d →
  d !! "cell" = Some v →
  deserialize_layer v custom_objects
    (<[fresh (dom σ) := delete "cell" d]> σ) = (Raise e, σd) →
  _RNNCellWrapper_from_config cls config custom_objects σ = (Raise e, σd).
Proof.
  intros Hconfig Hcell Hdes.
  unfold _RNNCellWrapper_from_config, dict_copy, dict_pop, bind, load, alloc,
    put_dict, ret.
  rewrite Hconfig. cbv zeta. rewrite lookup_insert_eq, Hcell.
  by rewrite insert_insert_eq, Hdes.
Qed.

(** X7: on any config with a ["cell"] entry, also one with more entries than
    [get_config] of [_RNNCellWrapper] writes, [from_config] is the
    constructor of the class on the deserialized cell, with every other entry
    as a keyword argument and never a keyword ["cell"]. *)
Theorem from_config_constructs
    (cls : wrapper_class) (config : loc) (custom_objects : value)
    (σ σd : store) (d : dict) (v : value) (c : Cell) :
  (∀ v, frame_safe (deserialize_layer v custom_objects)) →
  σ !! config = Some d →
  d !! "cell" = Some v →
  deserialize_layer v custom_objects
    (<[fresh (dom σ) := delete "cell" d]> σ) = (Ok c, σd) →
  _RNNCellWrapper_from_config cls config custom_objects σ
    = instantiate cls c [] (delete "cell" d) σd
  ∧ delete "cell" d !! "cell" = None
  ∧ ∀ k, k ≠ "cell" → delete "cell" d !! k = d !! k.
Proof.
  intros Hframe Hconfig Hcell Hdes.
  rewrite (from_config_run cls config custom_objects σ d Hframe Hconfig).
  cbv zeta. rewrite Hcell, Hdes. split; [done |].
  split; [apply lookup_delete_eq |]. intros k Hk. by apply lookup_delete_ne.
Qed.

(** X8: [from_config] changes no dictionary that exists when it is called,
    not the one it is given and not the dictionaries that one refers to. *)
Theorem from_config_frame_safe
    (cls : wrapper_class) (config : loc) (custom_objects : value) :
  (∀ v, frame_safe (deserialize_layer v custom_objects)) →
  (∀ args kwargs, frame_safe (Layer_init args kwargs)) →
  (∀ next, frame_safe_init next →
           frame_safe_init (DropoutWrapperBase_init next)) →
  (∀ next, frame_safe_init next →
           frame_safe_init (ResidualWrapperBase_init next)) →
  (∀ next, frame_safe_init next →
           frame_safe_init (DeviceWrapperBase_init next)) →
  frame_safe (_RNNCellWrapper_from_config cls config custom_objects).
Proof.
  intros Hdes Hlayer Hdrop Hres Hdev σ l d0 Hl.
  pose proof (instantiate_frame cls Hlayer Hdrop Hres Hdev) as Hinst.
  destruct (σ !! config) as [d|] eqn:Hconfig.
  2: { unfold _RNNCellWrapper_from_config, dict_copy, bind, load.
       by rewrite Hconfig. }
  rewrite (from_config_run cls config custom_objects σ d Hdes Hconfig).
  cbv zeta.
  assert (l ≠ fresh (dom σ)) as Hne by by eapply fresh_lookup_ne.
  destruct (d !! "cell") as [v|]; simpl; [| by rewrite lookup_insert_ne].
  set (σc := <[fresh (dom σ) := delete "cell" d]> σ).
  assert (σc !! l = Some d0) as Hc
    by by (unfold σc; rewrite lookup_insert_ne).
  pose proof (Hdes v σc _ _ Hc) as Hc'.
  destruct (deserialize_layer v custom_objects σc) as [[c|ex] σd];
    simpl in *; [by apply Hinst | done].
Qed.

(** X9: a config whose cell deserializes to an instance of
    [lstm_v1.LSTMCell] cannot be loaded as a [DropoutWrapper]: when the base
    classes initialize the wrapper with such a cell, [from_config] raises the
    [ValueError] of the constructor. *)
Theorem dropout_from_config_rejects_lstm
    (config : loc) (custom_objects : value) (σ σd σf : store)
    (d : dict) (v : value) (c : Cell) (self : Wrapper) :
  (∀ v, frame_safe (deserialize_layer v custom_objects)) →
  σ !! config = Some d →
  d !! "cell" = Some v →
  deserialize_layer v custom_objects
    (<[fresh (dom σ) := delete "cell" d]> σ) = (Ok c, σd) →
  DropoutWrapperBase_init (_RNNCellWrapper_init DropoutWrapper)
    c [] (delete "cell" d) σd = (Ok self, σf) →
  isinstance (cell self) lstm_v1_LSTMCell = true →
  ∃ msg,
    _RNNCellWrapper_from_config DropoutWrapper config custom_objects σ
    = (Raise (ValueError msg), σf).
Proof.
  intros Hframe Hconfig Hcell Hdes Hbase Hlstm.
  rewrite (from_config_run _ config custom_objects σ d Hframe Hconfig).
  cbv zeta. rewrite Hcell, Hdes. simpl. unfold DropoutWrapper_init.
  rewrite (bind_ok _ _ _ _ _ Hbase), Hlstm. eauto.
Qed.

(** X10: the check of [DropoutWrapper] is by class, not by name: a cell of a
    class that inherits from [lstm_v1.LSTMCell] is refused, and a cell whose
    class is only named [LSTMCell], in another module and with no such base,
    is accepted. *)
Theorem dropout_check_is_by_class
    (c : Cell) (args : list value) (kwargs : dict) (σ σ' : store)
    (self : Wrapper) :
  DropoutWrapperBase_init (_RNNCellWrapper_init DropoutWrapper) c args kwargs σ
    = (Ok self, σ') →
  (lstm_v1_LSTMCell ∈ cell_bases (cell self) →
   ∃ msg, DropoutWrapper_init c args kwargs σ
          = (Raise (ValueError msg), σ'))
  ∧ (cls_name (cell_class (cell self)) = "LSTMCell" →
     cls_module (cell_class (cell self)) ≠ "keras.layers.rnn.lstm_v1" →
     lstm_v1_LSTMCell ∉ cell_bases (cell self) →
     DropoutWrapper_init c args kwargs σ = (Ok self, σ')).
Proof.
  intros Hbase. unfold DropoutWrapper_init.
  rewrite (bind_ok _ _ _ _ _ Hbase). unfold isinstance. split.
  - intros Hin. rewrite bool_decide_eq_true_2; [eauto |].
    apply elem_of_cons. by right.
  - intros Hname Hmod Hnotin. rewrite bool_decide_eq_false_2; [done |].
    intros [Heq|Hin]%elem_of_cons; [| done].
    apply Hmod. by rewrite <- Heq.
Qed.

(** X11: [_expects_training_arg] looks at the positional arguments and at
    [**kwargs] only: for a cell whose [call] takes [training] as a
    keyword-only argument, and no [**kwargs], the constructor sets it to
    [False]. *)
Theorem keyword_only_training_not_expected
    (cls : wrapper_class) (c : Cell) (args : list value) (kwargs : dict)
    (σ σ' : store) (ly : Layer) :
  Layer_init args kwargs σ = (Ok ly, σ') →
  "training" ∈ spec_kwonlyargs (getfullargspec_call c) →
  "training" ∉ spec_args (getfullargspec_call c) →
  spec_varkw (getfullargspec_call c) = None →
  ∃ self,
    _RNNCellWrapper_init cls c args kwargs σ = (Ok self, σ')
    ∧ _expects_training_arg self = false.
Proof.
  intros Hlayer _ Hargs Hkw. unfold _RNNCellWrapper_init.
  rewrite (bind_ok _ _ _ _ _ Hlayer). eexists. split; [reflexivity |].
  cbn [_expects_training_arg]. rewrite Hkw. cbn.
  by rewrite orb_false_r, bool_decide_eq_false.
Qed.

End WrapperBehaviour.

(** * Further properties of the tests *)

Section MnistBehaviour.
Context `{DTensor} {W : Type} (h : handler W).

Ltac step_call :=
  match goal with
  | |- context [trace h (Call ?c ?k) ?w] =>
      let E := fresh "Hcall" in
      destruct (h _ c w) as [[?|?] ?] eqn:E;
      [ rewrite ?(outcome_call_ok h c k _ _ _ E),
          (trace_call_ok h c k _ _ _ E)
      | rewrite ?(outcome_call_raise h c k _ _ _ E),
          (trace_call_raise h c k _ _ _ E) ];
      cbn beta
  end.

Ltac step_test :=
  unfold test_mnist_training_cpu; rewrite mesh_devices;
  step_call;
  [ match goal with
    | |- context [match ?l !! _ with _ => _ end] => destruct l as [|? ?]
    end;
    cbn [lookup list_lookup];
    [ | repeat step_call;
        rewrite ?outcome_assertEqual, ?trace_assertEqual ]
  | ];
  cbn.

Ltac finish_leaf :=
  repeat split; intros;
  repeat match goal with
         | u : unit |- _ => destruct u
         | H : _ ∈ [] |- _ => by apply elem_of_nil in H
         | H : _ ∈ [_] |- _ => apply list_elem_of_singleton in H
         | H : context [if ?b then _ else _] |- _ => destruct b eqn:?
         end;
  cbn in *; simplify_eq; eauto 10; try congruence.

(** X12: when no physical CPU device is listed, the test ends in the
    [IndexError] of [devices[0]], after the listing alone: no logical device
    is configured and no mesh made. *)
Theorem test_without_cpu_device (w w' : W) :
  h _ (list_physical_devices "CPU") w = (Ok [], w') →
  exec h test_mnist_training_cpu w
  = (Raise (IndexError "list index out of range"), w',
     [Ev (list_physical_devices "CPU") (Ok [])]).
Proof.
  intros Hlist. unfold test_mnist_training_cpu. cbn [exec].
  by rewrite Hlist.
Qed.

(** X13: in every run the calls the test has made are a beginning of its
    eleven calls in the order of the source, each made once at most, and at
    most one of them raised. *)
Theorem test_calls_in_order (w : W) :
  let tr := trace h test_mnist_training_cpu w in
  event_name <$> tr `prefix_of` cpu_test_calls
  ∧ (length (raised tr) ≤ 1)%nat.
Proof.
  intros tr. subst tr. step_test;
    (split; [by eexists | cbn; lia]).
Qed.

(** X14: the test handles no exception: when a call raises, the test ends
    with that exception, the call is the last one made, and no call before
    it raised. *)
Theorem test_stops_at_first_failure (w : W) (e : exn) :
  e ∈ raised (trace h test_mnist_training_cpu w) →
  outcome h test_mnist_training_cpu w = Raise e
  ∧ raised (trace h test_mnist_training_cpu w) = [e]
  ∧ ∃ ev, last (trace h test_mnist_training_cpu w) = Some ev
          ∧ raised [ev] = [e].
Proof. step_test; finish_leaf. Qed.

Lemma test_pass_trace (w : W) :
  outcome h test_mnist_training_cpu w = Ok tt →
  event_name <$> trace h test_mnist_training_cpu w = cpu_test_calls
  ∧ raised (trace h test_mnist_training_cpu w) = []
  ∧ ∃ mesh losses,
      training_runs (trace h test_mnist_training_cpu w)
        = [(mesh, Ok losses)]
      ∧ list_eqb object_eq losses (sorted_reverse float_lt losses) = true.
Proof. step_test; finish_leaf. Qed.

(** X15: the test passes only after all eleven calls have returned: no call
    has raised, training has run, once, and its losses, when none of them is
    a NaN, decrease: each is at most the one before it. *)
Theorem test_passes_only_after_training (w : W) :
  outcome h test_mnist_training_cpu w = Ok tt →
  event_name <$> trace h test_mnist_training_cpu w = cpu_test_calls
  ∧ raised (trace h test_mnist_training_cpu w) = []
  ∧ ∃ mesh losses,
      training_runs (trace h test_mnist_training_cpu w)
        = [(mesh, Ok losses)]
      ∧ (Forall (λ x, is_nan (float_value x) = false) losses →
         decreasing (float_value <$> losses)).
Proof.
  intros Hpass.
  destruct (test_pass_trace w Hpass)
    as (Hcalls & Hraised & mesh & losses & Hrun & Heq).
  split; [done |]. split; [done |]. exists mesh, losses. split; [done |].
  intros Hnan. by apply losses_sorted_iff_decreasing.
Qed.

(** X16: what training is run on: three epochs of a hundred steps with a
    global batch of 64, on the mesh that was created, with the model made
    from the all-replicated layout map of that mesh and the [Adam] optimizer
    of learning rate 0.001 on that mesh, built on the trainable variables of
    that model; and the seed 1337 was set before. *)
Theorem training_data_flow
    (w : W) (model : Model) (optimizer : Optimizer) (mesh : Mesh)
    (hyper : nat * nat * nat) :
  (model, optimizer, mesh, hyper)
    ∈ training_requests (trace h test_mnist_training_cpu w) →
  let tr := trace h test_mnist_training_cpu w in
  hyper = (3, 100, 64)%nat
  ∧ seeds_set tr = [1337%Z]
  ∧ (∃ r, mesh_requests tr
          = [(["CPU:0"; "CPU:1"; "CPU:2"; "CPU:3"; "CPU:4"; "CPU:5";
               "CPU:6"; "CPU:7"], [("batch", 8%nat)], r)]
          ∧ r = Ok mesh)
  ∧ ∃ layout_map var_list,
      layout_maps_made tr = [(mesh, Ok layout_map)]
      ∧ models_made tr = [(layout_map, Ok model)]
      ∧ optimizers_made tr = [("0.001", mesh, Ok optimizer)]
      ∧ variables_read tr = [(model, Ok var_list)]
      ∧ optimizers_built tr = [(optimizer, var_list, Ok tt)].
Proof. step_test; finish_leaf. Qed.

Lemma decreasing_replicate (n : nat) (x : float) :
  is_nan x = false → decreasing (replicate n x).
Proof.
  intros Hx i a b [-> _]%lookup_replicate [-> _]%lookup_replicate.
  apply SFleb_key; [done | done |]. right. by unfold key_eq.
Qed.

(** X17: the comparison is not strict and asks for no second loss: when
    training returns the same loss any number of times, none, one or more,
    the test passes. *)
Theorem test_passes_on_constant_losses
    (w : W) (mesh : Mesh) (losses : list pyfloat) (n : nat) (x : float) :
  (mesh, Ok losses) ∈ training_runs (trace h test_mnist_training_cpu w) →
  float_value <$> losses = replicate n x →
  is_nan x = false →
  outcome h test_mnist_training_cpu w = Ok tt.
Proof.
  intros Hrun Hvalues Hx.
  rewrite (test_outcome_of_losses h w mesh _ Hrun).
  assert (list_eqb object_eq losses (sorted_reverse float_lt losses) = true)
    as ->; [| done].
  apply losses_sorted_iff_decreasing.
  - apply Forall_forall. intros a Ha.
    assert (float_value a ∈ replicate n x) as Hin
      by (rewrite <- Hvalues; by apply list_elem_of_fmap_2).
    by apply elem_of_replicate in Hin as [-> _].
  - rewrite Hvalues. by apply decreasing_replicate.
Qed.

End MnistBehaviour.

Section TpuBehaviour.
Context `{DTensor} {W : Type} (h : tpu_handler W).

Lemma tpu_outcome_call_ok {R X} (c : tpu_call X) (k : X → tpu_prog R)
    w x w' :
  h X c w = (Ok x, w') →
  tpu_outcome h (TpuCall c k) w = tpu_outcome h (k x) w'.
Proof.
  unfold tpu_outcome. cbn [tpu_exec]. intros ->.
  by destruct (tpu_exec h (k x) w') as [[r w''] tr].
Qed.

Lemma tpu_trace_call_ok {R X} (c : tpu_call X) (k : X → tpu_prog R)
    w x w' :
  h X c w = (Ok x, w') →
  tpu_trace h (TpuCall c k) w = TpuEv c (Ok x) :: tpu_trace h (k x) w'.
Proof.
  unfold tpu_trace. cbn [tpu_exec]. intros ->.
  by destruct (tpu_exec h (k x) w') as [[r w''] tr].
Qed.

Lemma tpu_outcome_call_raise {R X} (c : tpu_call X) (k : X → tpu_prog R)
    w e w' :
  h X c w = (Raise e, w') → tpu_outcome h (TpuCall c k) w = Raise e.
Proof. unfold tpu_outcome. cbn [tpu_exec]. by intros ->. Qed.

Lemma tpu_trace_call_raise {R X} (c : tpu_call X) (k : X → tpu_prog R)
    w e w' :
  h X c w = (Raise e, w') →
  tpu_trace h (TpuCall c k) w = [TpuEv c (Raise e)].
Proof. unfold tpu_trace. cbn [tpu_exec]. by intros ->. Qed.

Lemma tpu_outcome_assertEqual (first second : list pyfloat) w :
  tpu_outcome h (tpu_assertEqual first second) w =
    if list_eqb object_eq first second then Ok tt
    else Raise (AssertionError "Lists differ").
Proof.
  unfold tpu_assertEqual. by destruct (list_eqb object_eq first second).
Qed.

Lemma tpu_trace_assertEqual (first second : list pyfloat) w :
  tpu_trace h (tpu_assertEqual first second) w = [].
Proof.
  unfold tpu_assertEqual. by destruct (list_eqb object_eq first second).
Qed.

Ltac step_tpu_call :=
  match goal with
  | |- context [tpu_trace h (TpuCall ?c ?k) ?w] =>
      let E := fresh "Hcall" in
      destruct (h _ c w) as [[?|?] ?] eqn:E;
      [ rewrite ?(tpu_outcome_call_ok c k _ _ _ E),
          (tpu_trace_call_ok c k _ _ _ E)
      | rewrite ?(tpu_outcome_call_raise c k _ _ _ E),
          (tpu_trace_call_raise c k _ _ _ E) ];
      cbn beta zeta
  end.

Ltac step_tpu_test :=
  unfold DISABLED_test_mnist_training_tpu;
  repeat step_tpu_call;
  rewrite ?tpu_outcome_assertEqual, ?tpu_trace_assertEqual;
  cbn.

Ltac finish_tpu_leaf :=
  repeat split; intros;
  repeat match goal with
         | u : unit |- _ => destruct u
         | H : _ ∈ [] |- _ => by apply elem_of_nil in H
         | H : _ ∈ [_] |- _ => apply list_elem_of_singleton in H
         end;
  cbn in *; simplify_eq; eauto 10; try congruence.

Lemma tpu_test_outcome_of_losses
    (w : W) (mesh : Mesh) (hyper : nat * nat * nat) (losses : list pyfloat) :
  (mesh, hyper, Ok losses)
    ∈ tpu_training_runs (tpu_trace h DISABLED_test_mnist_training_tpu w) →
  tpu_outcome h DISABLED_test_mnist_training_tpu w =
    if list_eqb object_eq losses (sorted_reverse float_lt losses) then Ok tt
    else Raise (AssertionError "Lists differ").
Proof. step_tpu_test; finish_tpu_leaf. Qed.

(** X18: the TPU test has the pass criterion of the CPU test: in a run in
    which training returned losses without a NaN, it passes exactly when
    each loss is at most the one before it, and fails in its assertion
    otherwise. *)
Theorem tpu_test_passes_iff_losses_decrease
    (w : W) (mesh : Mesh) (hyper : nat * nat * nat) (losses : list pyfloat) :
  (mesh, hyper, Ok losses)
    ∈ tpu_training_runs (tpu_trace h DISABLED_test_mnist_training_tpu w) →
  Forall (λ x, is_nan (float_value x) = false) losses →
  (tpu_outcome h DISABLED_test_mnist_training_tpu w = Ok tt ↔
     decreasing (float_value <$> losses))
  ∧ (¬ decreasing (float_value <$> losses) →
     ∃ msg, tpu_outcome h DISABLED_test_mnist_training_tpu w
            = Raise (AssertionError msg)).
Proof.
  intros Hrun Hnan.
  rewrite <- (losses_sorted_iff_decreasing losses Hnan).
  rewrite (tpu_test_outcome_of_losses w mesh hyper losses Hrun).
  destruct (list_eqb object_eq losses (sorted_reverse float_lt losses)).
  - split; [done |]. by intros [].
  - split; [done |]. eauto.
Qed.

(** X19: in every run the calls the TPU test has made are a beginning of its
    ten calls in the order of the source; it never enables the random
    generator of the backend, never configures logical devices and never
    makes a mesh with [create_mesh], as the CPU test does. *)
Theorem tpu_test_calls_in_order (w : W) :
  let names :=
    tpu_event_name <$> tpu_trace h DISABLED_test_mnist_training_tpu w in
  names `prefix_of` tpu_test_calls
  ∧ ("backend.enable_tf_random_generator" ∉ names)
  ∧ ("tf.config.set_logical_device_configuration" ∉ names)
  ∧ ("mesh_util.create_mesh" ∉ names).
Proof.
  intros names. subst names. step_tpu_test;
    (split; [by eexists |]);
    repeat split; apply (bool_decide_unpack _); vm_compute; exact I.
Qed.

(** X20: the TPU mesh has one dimension, [batch], whose size is the number of
    TPU devices the runtime reported after the TPU system was initialized,
    and training, with the CPU test's three epochs of a hundred steps and
    global batch of 64, runs on the mesh that request returned. *)
Theorem tpu_training_mesh
    (w : W) (mesh : Mesh) (hyper : nat * nat * nat)
    (r : res (list pyfloat)) :
  (mesh, hyper, r)
    ∈ tpu_training_runs (tpu_trace h DISABLED_test_mnist_training_tpu w) →
  let tr := tpu_trace h DISABLED_test_mnist_training_tpu w in
  hyper = (3, 100, 64)%nat
  ∧ head tr = Some (TpuEv dtensor_initialize_tpu_system (Ok tt))
  ∧ ∃ n, tpu_device_counts tr = [("TPU", Ok n)]
         ∧ tpu_mesh_requests tr = [(["batch"], [n], "tpu_mesh", Ok mesh)].
Proof. step_tpu_test; finish_tpu_leaf. Qed.

End TpuBehaviour.

(** ** The further properties at work *)

Lemma build_failure_keeps_flag_witness :
  ∃ self',
    @_RNNCellWrapper_build bare_runtime 4%nat bare_wrapper
      = (Raise (ValueError "inputs_shape"), self')
    ∧ built (layer self') = false.
Proof.
  destruct (@build_failure_keeps_flag bare_runtime bare_wrapper 4%nat
              (ValueError "inputs_shape") gru eq_refl)
    as (self' & Hb & _ & _ & Hflag & _).
  exists self'. split; [exact Hb | exact Hflag].
Defined.

Lemma build_twice_builds_cell_twice_witness :
  ∃ self',
    (do! @_RNNCellWrapper_build linear_runtime 4%nat
     in @_RNNCellWrapper_build linear_runtime 5%nat) dropout_gru
    = (Ok tt, self').
Proof.
  eexists.
  exact (@build_twice_builds_cell_twice linear_runtime dropout_gru
           4%nat 5%nat _ _ eq_refl eq_refl).
Defined.

Lemma get_config_raises_iff_witness :
  @_RNNCellWrapper_get_config _ bare_framework bare_wrapper ∅
  = (Raise (Exn "NotImplementedError" "get_config"), ∅).
Proof.
  apply (@get_config_raises_iff _ bare_framework bare_wrapper ∅ ∅
           (Exn "NotImplementedError" "get_config")).
  - apply frame_safe_alloc.
  - left. reflexivity.
Defined.

Lemma get_config_returns_new_dicts_witness :
  ∃ (config : dict) (entry : loc),
    residual_config_store !! residual_config = Some config
    ∧ config !! "cell" = Some (VRef entry)
    ∧ residual_config ≠ entry.
Proof.
  destruct (@get_config_returns_new_dicts _ linear_framework residual_gru ∅
              residual_config_store residual_config
              (frame_safe_alloc _)
              (linear_get_config_frame residual_gru)
              residual_get_config_run)
    as (config & entry & Hr & Hc & _ & _ & Hne & _).
  exists config, entry. split; [exact Hr |]. split; [exact Hc | exact Hne].
Defined.

Lemma layer_store_lookup : layer_store !! 1%positive = Some layer_config.
Proof. vm_compute. reflexivity. Qed.

Lemma layer_config_no_cell : layer_config !! "cell" = None.
Proof. vm_compute. reflexivity. Qed.

Lemma wrapper_config_cell :
  wrapper_config !! "cell" = Some (VRef 2%positive).
Proof. vm_compute. reflexivity. Qed.

Lemma from_config_without_cell_witness :
  (@_RNNCellWrapper_from_config _ linear_framework ResidualWrapper
     1%positive VNone layer_store).1
  = Raise (KeyError "cell").
Proof.
  exact (f_equal fst
           (@from_config_without_cell _ linear_framework ResidualWrapper
              1%positive VNone layer_store layer_config
              layer_store_lookup layer_config_no_cell)).
Defined.

Lemma from_config_deserialize_failure_witness :
  (@_RNNCellWrapper_from_config _ failing_framework ResidualWrapper
     1%positive VNone config_store).1
  = Raise (ValueError "Unknown layer").
Proof.
  exact (f_equal fst
           (@from_config_deserialize_failure _ failing_framework
              ResidualWrapper 1%positive VNone config_store _
              wrapper_config (VRef 2%positive) (ValueError "Unknown layer")
              config_store_lookup wrapper_config_cell eq_refl)).
Defined.

Lemma from_config_constructs_witness :
  @_RNNCellWrapper_from_config _ lstm_framework ResidualWrapper
    1%positive VNone config_store
  = @instantiate _ lstm_framework ResidualWrapper lstm []
      (delete "cell" wrapper_config)
      (<[fresh (dom config_store) := delete "cell" wrapper_config]>
         config_store).
Proof.
  exact (proj1
           (@from_config_constructs _ lstm_framework ResidualWrapper
              1%positive VNone config_store _ wrapper_config
              (VRef 2%positive) lstm
              (λ v, frame_safe_ret lstm)
              config_store_lookup wrapper_config_cell eq_refl)).
Defined.

Lemma from_config_frame_safe_witness :
  frame_safe
    (@_RNNCellWrapper_from_config _ linear_framework ResidualWrapper
       1%positive VNone).
Proof.
  exact (@from_config_frame_safe _ linear_framework ResidualWrapper
           1%positive VNone
           (λ v, linear_deserialize_frame v VNone)
           (λ args kwargs, frame_safe_ret _)
           (λ next Hnext, Hnext) (λ next Hnext, Hnext)
           (λ next Hnext, Hnext)).
Defined.

Lemma lstm_is_lstm :
  @isinstance linear_runtime lstm lstm_v1_LSTMCell = true.
Proof. vm_compute. reflexivity. Qed.

Lemma dropout_from_config_rejects_lstm_witness :
  ∃ msg σf,
    @_RNNCellWrapper_from_config _ lstm_framework DropoutWrapper
      1%positive VNone config_store
    = (Raise (ValueError msg), σf).
Proof.
  destruct (@dropout_from_config_rejects_lstm _ lstm_framework
              1%positive VNone config_store _ _ wrapper_config
              (VRef 2%positive) lstm _
              (λ v, frame_safe_ret lstm)
              config_store_lookup wrapper_config_cell eq_refl eq_refl
              lstm_is_lstm) as [msg Hmsg].
  exists msg. eexists. exact Hmsg.
Defined.

Lemma peephole_has_lstm_base :
  lstm_v1_LSTMCell ∈ linear_bases peephole_lstm.
Proof. apply (bool_decide_unpack _). vm_compute. exact I. Qed.

Lemma dropout_check_is_by_class_witness :
  ∃ msg, @DropoutWrapper_init _ linear_framework peephole_lstm [] ∅ ∅
         = (Raise (ValueError msg), ∅).
Proof.
  destruct (@dropout_check_is_by_class _ linear_framework peephole_lstm
              [] ∅ ∅ ∅ _ eq_refl) as [Hraise _].
  apply Hraise. exact peephole_has_lstm_base.
Defined.

Lemma keyword_only_has_training :
  "training" ∈ spec_kwonlyargs keyword_only_spec
  ∧ "training" ∉ spec_args keyword_only_spec.
Proof.
  split; apply (bool_decide_unpack _); vm_compute; exact I.
Qed.

Lemma keyword_only_training_not_expected_witness :
  ∃ self,
    @_RNNCellWrapper_init _ linear_framework _RNNCellWrapper
      keyword_only_cell [] ∅ ∅ = (Ok self, ∅)
    ∧ _expects_training_arg self = false.
Proof.
  exact (@keyword_only_training_not_expected _ linear_framework
           _RNNCellWrapper keyword_only_cell [] ∅ ∅ ∅ _ eq_refl
           (proj1 keyword_only_has_training)
           (proj2 keyword_only_has_training) eq_refl).
Defined.

Lemma no_device_listing :
  scripted_handler [] "" some_losses _ (list_physical_devices "CPU") tt
  = (Ok [], tt).
Proof. vm_compute. reflexivity. Qed.

Lemma test_without_cpu_device_witness :
  outcome (scripted_handler [] "" some_losses) test_mnist_training_cpu tt
  = Raise (IndexError "list index out of range").
Proof.
  exact (f_equal (λ x, x.1.1)
           (@test_without_cpu_device plain_dtensor unit
              (scripted_handler [] "" some_losses) tt tt no_device_listing)).
Defined.

Lemma adam_failure_raised :
  raised (trace (scripted_handler [0%nat] "optimizer_lib.Adam" some_losses)
            test_mnist_training_cpu tt)
  = [Exn "RuntimeError" "optimizer_lib.Adam"].
Proof. vm_compute. reflexivity. Qed.

Lemma test_stops_at_first_failure_witness :
  outcome (scripted_handler [0%nat] "optimizer_lib.Adam" some_losses)
    test_mnist_training_cpu tt
  = Raise (Exn "RuntimeError" "optimizer_lib.Adam").
Proof.
  refine (proj1
            (@test_stops_at_first_failure plain_dtensor unit
               (scripted_handler [0%nat] "optimizer_lib.Adam" some_losses)
               tt (Exn "RuntimeError" "optimizer_lib.Adam") _)).
  rewrite adam_failure_raised. by apply list_elem_of_singleton.
Defined.

Lemma test_passes_only_after_training_witness :
  raised (trace (plain_handler some_losses) test_mnist_training_cpu tt) = [].
Proof.
  exact (proj1 (proj2
           (@test_passes_only_after_training plain_dtensor unit
              (plain_handler some_losses) tt some_losses_pass))).
Defined.

Lemma plain_training_request :
  training_requests
    (trace (plain_handler some_losses) test_mnist_training_cpu tt)
  = [(tt, tt,
      ["CPU:0"; "CPU:1"; "CPU:2"; "CPU:3"; "CPU:4"; "CPU:5"; "CPU:6";
       "CPU:7"], (3, 100, 64)%nat)].
Proof. vm_compute. reflexivity. Qed.

Lemma training_data_flow_witness :
  seeds_set (trace (plain_handler some_losses) test_mnist_training_cpu tt)
  = [1337%Z].
Proof.
  refine (proj1 (proj2
            (@training_data_flow plain_dtensor unit
               (plain_handler some_losses) tt tt tt
               ["CPU:0"; "CPU:1"; "CPU:2"; "CPU:3"; "CPU:4"; "CPU:5";
                "CPU:6"; "CPU:7"] (3, 100, 64)%nat _))).
  rewrite plain_training_request. by apply list_elem_of_singleton.
Defined.

Lemma constant_training_run :
  training_runs
    (trace (plain_handler constant_losses) test_mnist_training_cpu tt)
  = [(["CPU:0"; "CPU:1"; "CPU:2"; "CPU:3"; "CPU:4"; "CPU:5"; "CPU:6";
       "CPU:7"], Ok constant_losses)].
Proof. vm_compute. reflexivity. Qed.

Lemma test_passes_on_constant_losses_witness :
  outcome (plain_handler constant_losses) test_mnist_training_cpu tt
  = Ok tt.
Proof.
  refine (@test_passes_on_constant_losses plain_dtensor unit
            (plain_handler constant_losses) tt
            ["CPU:0"; "CPU:1"; "CPU:2"; "CPU:3"; "CPU:4"; "CPU:5"; "CPU:6";
             "CPU:7"] constant_losses 3 float_1 _ eq_refl eq_refl).
  rewrite constant_training_run. by apply list_elem_of_singleton.
Defined.

Lemma plain_tpu_training_run :
  tpu_training_runs
    (tpu_trace (plain_tpu_handler some_losses)
       DISABLED_test_mnist_training_tpu tt)
  = [(["batch"], (3, 100, 64)%nat, Ok some_losses)].
Proof. vm_compute. reflexivity. Qed.

Lemma tpu_test_passes_iff_losses_decrease_witness :
  tpu_outcome (plain_tpu_handler some_losses)
    DISABLED_test_mnist_training_tpu tt = Ok tt
  ↔ decreasing (float_value <$> some_losses).
Proof.
  refine (proj1
            (@tpu_test_passes_iff_losses_decrease plain_dtensor unit
               (plain_tpu_handler some_losses) tt ["batch"]
               (3, 100, 64)%nat some_losses _ _)).
  - rewrite plain_tpu_training_run. by apply list_elem_of_singleton.
  - exact some_losses_no_nan.
Defined.

Lemma tpu_training_mesh_witness :
  ∃ n,
    tpu_device_counts
      (tpu_trace (plain_tpu_handler some_losses)
         DISABLED_test_mnist_training_tpu tt) = [("TPU", Ok n)]
    ∧ tpu_mesh_requests
        (tpu_trace (plain_tpu_handler some_losses)
           DISABLED_test_mnist_training_tpu tt)
      = [(["batch"], [n], "tpu_mesh", Ok ["batch"])].
Proof.
  refine (proj2 (proj2
            (@tpu_training_mesh plain_dtensor unit
               (plain_tpu_handler some_losses) tt ["batch"]
               (3, 100, 64)%nat (Ok some_losses) _))).
  rewrite plain_tpu_training_run. by apply list_elem_of_singleton.
Defined.
